(** * simple-http-todolist: the two Go programs and their specification

    The repository holds two programs.

    - [web-api.go]: a gin HTTP server with two static JSON endpoints over a
      package-level task list ([TaskService] below).
    - a one-shot seeding script that inserts three users through gorm,
      reads them back, prints them and prints their JSON ([Seeder] below).

    Both are written against libraries that are not part of the repository
    (gin, gorm, encoding/json, fmt).  Each library is modelled in a module of
    its own, kept apart from the embedding of the program text, so that the
    program definitions can be read side by side with the Go source. *)

From Stdlib Require Import String Ascii List NArith Bool Lia Permutation.
From Stdlib Require Import DecimalString DecimalFacts DecimalN.
Import ListNotations.
Local Open Scope string_scope.
Local Open Scope N_scope.
Set Warnings "-register-all".

(** ** Go values *)

Module Go.

(** A Go slice is either [nil] or a (possibly empty) sequence of elements.
    The two are different values: [len] is 0 for both, but encoding/json
    prints the first as [null] and the second as an array. *)
Inductive slice (A : Type) : Type :=
| nil_slice
| make_slice (elems : list A).
Arguments nil_slice {A}.
Arguments make_slice {A} elems.

(** The elements a [for _, x := range s] loop visits. *)
Definition elems {A} (s : slice A) : list A :=
  match s with
  | nil_slice => []
  | make_slice l => l
  end.

Definition len {A} (s : slice A) : nat := List.length (elems s).

Definition is_nil {A} (s : slice A) : bool :=
  match s with
  | nil_slice => true
  | make_slice _ => false
  end.

(** Characters that cannot be written inside a string literal here. *)
Definition dquote : ascii := "034"%char.
Definition newline : ascii := "010"%char.
Definition nl : string := String newline EmptyString.

(** A text between double quotes, for writing expected output. *)
Definition quoted (s : string) : string :=
  String dquote (s ++ String dquote EmptyString).

(** [strconv.FormatUint(n, 10)], which both [%d] and encoding/json use for
    a [uint]. *)
Definition FormatUint (n : N) : string := NilEmpty.string_of_uint (N.to_uint n).

(** [strings.Join]. *)
Definition Join (l : list string) (sep : string) : string := String.concat sep l.

(** [strings.IndexByte(s, c) >= 0]. *)
Fixpoint has_byte (c : ascii) (s : string) : bool :=
  match s with
  | EmptyString => false
  | String x r => Ascii.eqb x c || has_byte c r
  end.

(** Concatenation of a list of strings, as successive writes to a stream. *)
Fixpoint cat (l : list string) : string :=
  match l with
  | [] => EmptyString
  | s :: r => s ++ cat r
  end.

End Go.

(** ** encoding/json, for the values the two programs marshal *)

Module JSON.
Import Go.

(** The shape of a Go value as encoding/json sees it.  A struct is an
    object whose members come in field order; a map is an object whose
    members come in sorted key order (see [of_map]).  A number is kept as
    its literal, as [json.Number] does. *)
Inductive json : Type :=
| JNull
| JBool (b : bool)
| JNum (lit : string)
| JStr (s : string)
| JArr (l : list json)
| JObj (members : list (string * json)).

(** A [uint] marshals to its decimal digits. *)
Definition JUint (n : N) : json := JNum (FormatUint n).

(** *** Writing strings: [appendString] with [escapeHTML = true] *)

Definition hex : string := "0123456789abcdef".

Definition hex_digit (n : N) : ascii :=
  match String.get (N.to_nat n) hex with
  | Some c => c
  | None => "0"%char
  end.

(** [htmlSafeSet]: every ASCII byte except the control bytes, the double
    quote, the backslash, and [<], [>], [&]. *)
Definition htmlSafe (b : N) : bool :=
  (32 <=? b) && (b <? 128)
  && negb ((b =? 34) || (b =? 92) || (b =? 60) || (b =? 62) || (b =? 38)).

(** The [switch b] of [appendString] for an ASCII byte outside
    [htmlSafeSet]. *)
Definition escape_byte (b : N) : string :=
  let bs := String "\"%char in
  if (b =? 92) || (b =? 34) then bs (String (ascii_of_N b) EmptyString)
  else if b =? 8 then "\b"
  else if b =? 12 then "\f"
  else if b =? 10 then "\n"
  else if b =? 13 then "\r"
  else if b =? 9 then "\t"
  else "\u00" ++ String (hex_digit (N.shiftr b 4))
                  (String (hex_digit (N.land b 15)) EmptyString).

(** [utf8.DecodeRuneInString], as far as [appendString] needs it: the
    number of bytes of the well-formed encoding that starts the string, or
    [0] when there is none (Go then reports [RuneError] with size 1). *)
Definition cont (lo hi : N) (c : ascii) : bool :=
  let b := N_of_ascii c in (lo <=? b) && (b <=? hi).

Definition rune_size (b0 : N) (rest : string) : nat :=
  let two := match rest with
             | String c1 _ => cont 128 191 c1
             | _ => false
             end in
  let three lo hi := match rest with
                     | String c1 (String c2 _) => cont lo hi c1 && cont 128 191 c2
                     | _ => false
                     end in
  let four lo hi := match rest with
                    | String c1 (String c2 (String c3 _)) =>
                        cont lo hi c1 && cont 128 191 c2 && cont 128 191 c3
                    | _ => false
                    end in
  if (194 <=? b0) && (b0 <=? 223) then (if two then 2%nat else 0%nat)
  else if b0 =? 224 then (if three 160 191 then 3%nat else 0%nat)
  else if b0 =? 237 then (if three 128 159 then 3%nat else 0%nat)
  else if (225 <=? b0) && (b0 <=? 239) then (if three 128 191 then 3%nat else 0%nat)
  else if b0 =? 240 then (if four 144 191 then 4%nat else 0%nat)
  else if (241 <=? b0) && (b0 <=? 243) then (if four 128 191 then 4%nat else 0%nat)
  else if b0 =? 244 then (if four 128 143 then 4%nat else 0%nat)
  else 0%nat.

(** U+2028 and U+2029 are the byte sequences E2 80 A8 and E2 80 A9. *)
Definition line_sep (b0 : N) (rest : string) : option ascii :=
  match rest with
  | String c1 (String c2 _) =>
      if (b0 =? 226) && (N_of_ascii c1 =? 128)
         && ((N_of_ascii c2 =? 168) || (N_of_ascii c2 =? 169))
      then Some (hex_digit (N.land (N_of_ascii c2) 15))
      else None
  | _ => None
  end.

(** What is left to do with the continuation bytes of a rune whose first
    byte has been handled. *)
Inductive pending : Type :=
| Fresh
| Copy (n : nat)
| Drop (n : nat).

(** The loop of [appendString].  Go advances an index by the size of the
    rune; here the continuation bytes are consumed one at a time. *)
Fixpoint quote_from (p : pending) (s : string) : string :=
  match s with
  | EmptyString => EmptyString
  | String c rest =>
      match p with
      | Copy (S n) => String c (quote_from (match n with O => Fresh | _ => Copy n end) rest)
      | Drop (S n) => quote_from (match n with O => Fresh | _ => Drop n end) rest
      | _ =>
          let b := N_of_ascii c in
          if b <? 128 then
            if htmlSafe b then String c (quote_from Fresh rest)
            else escape_byte b ++ quote_from Fresh rest
          else
            match rune_size b rest with
            | O => "\ufffd" ++ quote_from Fresh rest
            | S n =>
                match line_sep b rest with
                | Some d => "\u202" ++ String d (quote_from (Drop n) rest)
                | None => String c (quote_from (match n with O => Fresh | _ => Copy n end) rest)
                end
            end
      end
  end.

Definition quote (s : string) : string :=
  String dquote (quote_from Fresh s ++ String dquote EmptyString).

(** *** Writing values *)

Section Encode.
Variable encode : json -> string.

Definition encode_member (m : string * json) : string :=
  quote (fst m) ++ ":" ++ encode (snd m).
End Encode.

Fixpoint encode (j : json) : string :=
  match j with
  | JNull => "null"
  | JBool true => "true"
  | JBool false => "false"
  | JNum lit => lit
  | JStr s => quote s
  | JArr l => "[" ++ Join (map encode l) "," ++ "]"
  | JObj ms => "{" ++ Join (map (encode_member encode) ms) "," ++ "}"
  end.

(** [json.Marshal] returns the bytes and an error.  It fails on channels,
    functions, complex numbers, cyclic values and failing custom
    marshalers; none of them can be written as a [json], so the error is
    always nil for the values of these programs. *)
Definition Marshal (j : json) : string * option string := (encode j, None).

(** A slice marshals to [null] when nil and to an array otherwise. *)
Definition of_slice {A} (f : A -> json) (s : slice A) : json :=
  match s with
  | nil_slice => JNull
  | make_slice l => JArr (map f l)
  end.

(** A map marshals with its keys sorted bytewise. *)
Fixpoint insert_member (m : string * json) (ms : list (string * json)) :=
  match ms with
  | [] => [m]
  | m' :: r => if String.leb (fst m) (fst m') then m :: ms else m' :: insert_member m r
  end.

Definition of_map (ms : list (string * json)) : json :=
  JObj (fold_right insert_member [] ms).

(** *** Reading JSON back: the scanner and [unquote] of the decoder *)

Definition is_ws (c : ascii) : bool :=
  let b := N_of_ascii c in (b =? 32) || (b =? 9) || (b =? 10) || (b =? 13).

Fixpoint skip_ws (s : string) : string :=
  match s with
  | String c rest => if is_ws c then skip_ws rest else s
  | EmptyString => s
  end.

Definition is_digit (c : ascii) : bool :=
  let b := N_of_ascii c in (48 <=? b) && (b <=? 57).

Definition hex_val (c : ascii) : option N :=
  let b := N_of_ascii c in
  if (48 <=? b) && (b <=? 57) then Some (b - 48)
  else if (97 <=? b) && (b <=? 102) then Some (b - 87)
  else if (65 <=? b) && (b <=? 70) then Some (b - 55)
  else None.

(** [getu4] without its [\u] prefix: the value of four hex digits. *)
Definition getu4 (s : string) : option N :=
  match s with
  | String a (String b (String c (String d _))) =>
      match hex_val a, hex_val b, hex_val c, hex_val d with
      | Some x, Some y, Some z, Some w => Some (((x * 16 + y) * 16 + z) * 16 + w)
      | _, _, _, _ => None
      end
  | _ => None
  end.

Definition byte (n : N) : string := String (ascii_of_N n) EmptyString.

(** [utf8.EncodeRune]; surrogates and values past U+10FFFF become
    U+FFFD. *)
Definition EncodeRune (r : N) : string :=
  if r <? 128 then byte r
  else if r <? 2048 then byte (192 + N.shiftr r 6) ++ byte (128 + N.land r 63)
  else if ((55296 <=? r) && (r <=? 57343)) || (1114111 <? r) then
    byte 239 ++ byte 191 ++ byte 189
  else if r <? 65536 then
    byte (224 + N.shiftr r 12) ++ byte (128 + N.land (N.shiftr r 6) 63)
    ++ byte (128 + N.land r 63)
  else
    byte (240 + N.shiftr r 18) ++ byte (128 + N.land (N.shiftr r 12) 63)
    ++ byte (128 + N.land (N.shiftr r 6) 63) ++ byte (128 + N.land r 63).

Definition is_surrogate (r : N) : bool := (55296 <=? r) && (r <? 57344).

(** [utf16.DecodeRune]: [None] stands for the replacement character. *)
Definition DecodeSurrogates (r1 r2 : N) : option N :=
  if (55296 <=? r1) && (r1 <? 56320) && (56320 <=? r2) && (r2 <? 57344)
  then Some (N.shiftl (r1 - 55296) 10 + (r2 - 56320) + 65536)
  else None.

(** The escape after a backslash: the text it stands for and how many
    further input characters it takes up after the escape letter. *)
Definition unescape (e : ascii) (rest : string) : option (string * nat) :=
  let b := N_of_ascii e in
  if (b =? 34) || (b =? 92) || (b =? 47) then Some (byte b, 0%nat)
  else if b =? 98 then Some (byte 8, 0%nat)
  else if b =? 102 then Some (byte 12, 0%nat)
  else if b =? 110 then Some (byte 10, 0%nat)
  else if b =? 114 then Some (byte 13, 0%nat)
  else if b =? 116 then Some (byte 9, 0%nat)
  else if b =? 117 then
    match getu4 rest with
    | None => None
    | Some rr =>
        if is_surrogate rr then
          match rest with
          | String _ (String _ (String _ (String _ (String b1 (String u1 rest2))))) =>
              if (N_of_ascii b1 =? 92) && (N_of_ascii u1 =? 117) then
                match getu4 rest2 with
                | Some rr1 =>
                    match DecodeSurrogates rr rr1 with
                    | Some r => Some (EncodeRune r, 10%nat)
                    | None => Some (EncodeRune 65533, 4%nat)
                    end
                | None => Some (EncodeRune 65533, 4%nat)
                end
              else Some (EncodeRune 65533, 4%nat)
          | _ => Some (EncodeRune 65533, 4%nat)
          end
        else Some (EncodeRune rr, 4%nat)
    end
  else None.

Definition prepend (t : string) (r : option (string * string)) :=
  match r with
  | Some (u, rest) => Some (t ++ u, rest)
  | None => None
  end.

(** A string literal after its opening quote: the text and the input left
    after the closing quote.  [Copy] and [Drop] play the part of the index
    arithmetic of [unquote]. *)
Fixpoint unquote_from (p : pending) (s : string) : option (string * string) :=
  match s with
  | EmptyString => None
  | String c rest =>
      match p with
      | Copy (S n) => prepend (String c EmptyString)
                        (unquote_from (match n with O => Fresh | _ => Copy n end) rest)
      | Drop (S n) => unquote_from (match n with O => Fresh | _ => Drop n end) rest
      | _ =>
          let b := N_of_ascii c in
          if b =? 34 then Some (EmptyString, rest)
          else if b =? 92 then
            match rest with
            | String e rest' =>
                match unescape e rest' with
                | Some (t, n) => prepend t (unquote_from (Drop (S n)) rest)
                | None => None
                end
            | EmptyString => None
            end
          else if b <? 32 then None
          else if b <? 128 then prepend (String c EmptyString) (unquote_from Fresh rest)
          else
            match rune_size b rest with
            | O => prepend (EncodeRune 65533) (unquote_from Fresh rest)
            | S n => prepend (String c EmptyString)
                       (unquote_from (match n with O => Fresh | _ => Copy n end) rest)
            end
      end
  end.

(** The number grammar of the scanner, as the states it moves through. *)
Inductive num_state : Type :=
| NBegin | NNeg | NZero | NInt | NDot | NFrac | NE | NESign | NExp.

Definition num_final (st : num_state) : bool :=
  match st with
  | NZero | NInt | NFrac | NExp => true
  | _ => false
  end.

Definition num_step (st : num_state) (c : ascii) : option num_state :=
  let b := N_of_ascii c in
  let digit := is_digit c in
  let e := (b =? 101) || (b =? 69) in
  match st with
  | NBegin => if b =? 45 then Some NNeg
              else if b =? 48 then Some NZero
              else if digit then Some NInt else None
  | NNeg => if b =? 48 then Some NZero else if digit then Some NInt else None
  | NZero => if b =? 46 then Some NDot else if e then Some NE else None
  | NInt => if digit then Some NInt
            else if b =? 46 then Some NDot else if e then Some NE else None
  | NDot => if digit then Some NFrac else None
  | NFrac => if digit then Some NFrac else if e then Some NE else None
  | NE => if (b =? 43) || (b =? 45) then Some NESign
          else if digit then Some NExp else None
  | NESign => if digit then Some NExp else None
  | NExp => if digit then Some NExp else None
  end.

Fixpoint scan_number (st : num_state) (s : string) : option (string * string) :=
  let stop := if num_final st then Some (EmptyString, s) else None in
  match s with
  | EmptyString => stop
  | String c rest =>
      match num_step st c with
      | Some st' => prepend (String c EmptyString) (scan_number st' rest)
      | None => stop
      end
  end.

Definition strip_prefix (p s : string) : option string :=
  if String.prefix p s
  then Some (String.substring (String.length p) (String.length s - String.length p) s)
  else None.

(** *** Reading JSON back: values *)

Fixpoint parse_value (fuel : nat) (s : string) : option (json * string) :=
  match fuel with
  | O => None
  | S fuel =>
      match skip_ws s with
      | EmptyString => None
      | String c rest as s' =>
          let b := N_of_ascii c in
          if b =? 123 then
            match skip_ws rest with
            | String c' rest' as r =>
                if N_of_ascii c' =? 125 then Some (JObj [], rest')
                else match parse_members fuel r with
                     | Some (ms, r') => Some (JObj ms, r')
                     | None => None
                     end
            | EmptyString => None
            end
          else if b =? 91 then
            match skip_ws rest with
            | String c' rest' as r =>
                if N_of_ascii c' =? 93 then Some (JArr [], rest')
                else match parse_elements fuel r with
                     | Some (vs, r') => Some (JArr vs, r')
                     | None => None
                     end
            | EmptyString => None
            end
          else if b =? 34 then
            match unquote_from Fresh rest with
            | Some (t, r) => Some (JStr t, r)
            | None => None
            end
          else if b =? 110 then option_map (pair JNull) (strip_prefix "null" s')
          else if b =? 116 then option_map (pair (JBool true)) (strip_prefix "true" s')
          else if b =? 102 then option_map (pair (JBool false)) (strip_prefix "false" s')
          else
            match scan_number NBegin s' with
            | Some (lit, r) => Some (JNum lit, r)
            | None => None
            end
      end
  end
with parse_elements (fuel : nat) (s : string) : option (list json * string) :=
  match fuel with
  | O => None
  | S fuel =>
      match parse_value fuel s with
      | Some (v, r) =>
          match skip_ws r with
          | String c r' =>
              if N_of_ascii c =? 44 then
                match parse_elements fuel r' with
                | Some (vs, r'') => Some (v :: vs, r'')
                | None => None
                end
              else if N_of_ascii c =? 93 then Some ([v], r')
              else None
          | EmptyString => None
          end
      | None => None
      end
  end
with parse_members (fuel : nat) (s : string) : option (list (string * json) * string) :=
  match fuel with
  | O => None
  | S fuel =>
      match skip_ws s with
      | String q r0 =>
          if N_of_ascii q =? 34 then
            match unquote_from Fresh r0 with
            | Some (k, r1) =>
                match skip_ws r1 with
                | String c r2 =>
                    if N_of_ascii c =? 58 then
                      match parse_value fuel r2 with
                      | Some (v, r3) =>
                          match skip_ws r3 with
                          | String c' r4 =>
                              if N_of_ascii c' =? 44 then
                                match parse_members fuel r4 with
                                | Some (ms, r5) => Some ((k, v) :: ms, r5)
                                | None => None
                                end
                              else if N_of_ascii c' =? 125 then Some ([(k, v)], r4)
                              else None
                          | EmptyString => None
                          end
                      | None => None
                      end
                    else None
                | EmptyString => None
                end
            | None => None
            end
          else None
      | EmptyString => None
      end
  end.

(** A whole document: one value, white space around it, nothing else.
    Go's decoder recurses on the nesting of the input; here every level of
    nesting and every further element or member takes one unit of fuel and
    at least one character, so twice the length of the input is enough
    ([SeederFacts.Unmarshal_Marshal] checks it for what the script
    writes). *)
Definition parse (s : string) : option json :=
  match parse_value (2 * String.length s + 2) s with
  | Some (j, r) =>
      match skip_ws r with
      | EmptyString => Some j
      | _ => None
      end
  | None => None
  end.

(** [strconv.ParseUint(s, 10, 64)]. *)
Definition ParseUint (s : string) : option N :=
  match s with
  | EmptyString => None
  | _ =>
      match NilEmpty.uint_of_string s with
      | Some d => let n := N.of_uint d in if n <? 2 ^ 64 then Some n else None
      | None => None
      end
  end.

(** Field names match exactly or, failing that, up to ASCII case. *)
Definition lower (c : ascii) : ascii :=
  let b := N_of_ascii c in
  if (65 <=? b) && (b <=? 90) then ascii_of_N (b + 32) else c.

Fixpoint EqualFold (s t : string) : bool :=
  match s, t with
  | EmptyString, EmptyString => true
  | String a s', String b t' => Ascii.eqb (lower a) (lower b) && EqualFold s' t'
  | _, _ => false
  end.

End JSON.

(** ** gin, as far as [web-api.go] uses it *)

Module Gin.
Import Go JSON.

(** [http.Request]: the method and [URL.Path] decide the route; the rest
    of the request (query, headers, body) is carried along. *)
Record Request : Type := mkRequest {
  Method : string;
  Path : string;
  Query : string;
  Header : list (string * string);
  Body : string
}.

(** What has been written to the client: status line, headers, body. *)
Record ResponseWriter : Type := mkResponse {
  Status : N;
  RespHeader : list (string * string);
  Written : string
}.

Record Context : Type := mkContext {
  Req : Request;
  Writer : ResponseWriter
}.

(** [gin.H] is [map[string]any]; a literal lists its entries. *)
Definition H : Type := list (string * json).

Definition StatusOK : N := 200.

(** A fresh response writer answers 200 until told otherwise. *)
Definition new_writer : ResponseWriter := mkResponse StatusOK [] EmptyString.

Definition has_header (k : string) (h : list (string * string)) : bool :=
  existsb (fun kv => String.eqb (fst kv) k) h.

(** [writeContentType]: set only when the header is still absent. *)
Definition writeContentType (v : string) (h : list (string * string)) :=
  if has_header "Content-Type" h then h else (h ++ [("Content-Type", v)])%list.

Definition bodyAllowedForStatus (code : N) : bool :=
  negb (((100 <=? code) && (code <=? 199)) || (code =? 204) || (code =? 304)).

(** [c.JSON(code, obj)]: status, content type, then the marshalled
    object. *)
Definition JSON (code : N) (obj : H) (c : Context) : Context :=
  let w := Writer c in
  let hdr := writeContentType "application/json; charset=utf-8" (RespHeader w) in
  if bodyAllowedForStatus code
  then mkContext (Req c) (mkResponse code hdr (Written w ++ fst (Marshal (of_map obj))))
  else mkContext (Req c) (mkResponse code hdr (Written w)).

Section Engine.
(** The package-level variables of the program that registers the
    handlers.  A handler receives the context and may read and write
    them. *)
Variable G : Type.

Definition HandlerFunc : Type := Context -> G -> Context * G.

(** One entry per registered route: method, path, handler.  The paths
    registered by this program contain neither [:] nor [*], so the
    router's tree lookup is string equality on the path. *)
Record Engine : Type := mkEngine {
  routes : list (string * string * HandlerFunc)
}.

(** [gin.Default()]: an engine without routes.  The logger and recovery
    middleware it installs write an access log and turn a panicking
    handler into a 500; they leave the response of a handler that returns
    alone. *)
Definition Default : Engine := mkEngine [].

Definition Handle (method path : string) (h : HandlerFunc) (e : Engine) : Engine :=
  mkEngine (routes e ++ [(method, path, h)])%list.

Definition GET : string -> HandlerFunc -> Engine -> Engine := Handle "GET".

Fixpoint getValue (rs : list (string * string * HandlerFunc)) (method path : string)
  : option HandlerFunc :=
  match rs with
  | [] => None
  | (m, p, h) :: r =>
      if String.eqb m method && String.eqb p path then Some h
      else getValue r method path
  end.

(** The answer to a request no route matches; [unmatched], below, is the
    one of a gin engine as the programs set it up. *)
Variable serverDefault : Request -> ResponseWriter.

Definition ServeHTTP (e : Engine) (req : Request) (g : G) : ResponseWriter * G :=
  match getValue (routes e) (Method req) (Path req) with
  | Some h => let (c, g') := h (mkContext req new_writer) g in (Writer c, g')
  | None => (serverDefault req, g)
  end.

(** [router.Run(addr)] serves requests until the process is stopped.
    Handlers of this program run to completion without blocking and the
    only state they share is [G], so a run is the sequence of requests in
    the order their handlers take effect. *)
Fixpoint Run (e : Engine) (reqs : list Request) (g : G) : list ResponseWriter * G :=
  match reqs with
  | [] => ([], g)
  | req :: rest =>
      let (w, g1) := ServeHTTP e req g in
      let (ws, g2) := Run e rest g1 in
      (w :: ws, g2)
  end.
End Engine.

Arguments mkEngine {G} routes.
Arguments routes {G} e.
Arguments Default {G}.
Arguments Handle {G} method path h e.
Arguments GET {G} _ _ _.
Arguments getValue {G} rs method path.
Arguments ServeHTTP {G} serverDefault e req g.
Arguments Run {G} serverDefault e reqs g.

(** *** Requests no route matches

    [gin.Default()] leaves the engine as [gin.New()] sets it up:
    [RedirectTrailingSlash] on, [RedirectFixedPath] and
    [HandleMethodNotAllowed] off, no [NoRoute] handlers.  The programs
    change none of this. *)

Fixpoint last_byte (p : string) : option ascii :=
  match p with
  | EmptyString => None
  | String c EmptyString => Some c
  | String _ r => last_byte r
  end.

Fixpoint drop_last (p : string) : string :=
  match p with
  | EmptyString => EmptyString
  | String _ EmptyString => EmptyString
  | String c r => String c (drop_last r)
  end.

(** [redirectTrailingSlash]: the path without its trailing slash when it
    is longer than one byte and ends in one, with a slash added
    otherwise. *)
Definition toggle_slash (p : string) : string :=
  match last_byte p with
  | Some "/"%char => if Nat.ltb 1 (String.length p) then drop_last p else p ++ "/"
  | _ => p ++ "/"
  end.

(** The router's trailing-slash recommendation ([value.tsr]) for a path
    it found no handler for.  With routes that have no parameters, as
    here, the tree recommends the redirect exactly when the path with its
    trailing slash taken off, or put on, is registered for the method. *)
Definition tsr {G} (e : Engine G) (req : Request) : bool :=
  match getValue (routes e) (Method req) (toggle_slash (Path req)) with
  | Some _ => true
  | None => false
  end.

(** [handleHTTPRequest] after the lookup has failed: whether the request
    is redirected rather than answered not-found. *)
Definition redirects {G} (e : Engine G) (req : Request) : bool :=
  negb (String.eqb (Method req) "CONNECT")
  && negb (String.eqb (Path req) "/")
  && tsr e req.

(** [redirectRequest]: 301 for a GET, 307 for any other method. *)
Definition StatusMovedPermanently : N := 301.
Definition StatusTemporaryRedirect : N := 307.
Definition StatusNotFound : N := 404.

Definition redirect_code (method : string) : N :=
  if String.eqb method "GET" then StatusMovedPermanently else StatusTemporaryRedirect.

(** [serveError(c, http.StatusNotFound, default404Body)] with no
    [NoRoute] handler. *)
Definition notFound : ResponseWriter :=
  mkResponse StatusNotFound [("Content-Type", "text/plain")] "404 page not found".

Section Unmatched.
Variable G : Type.

(** What net/http's [Redirect] writes besides the status line for a
    request and a code: the [Location] header and, for GET, a short HTML
    note.  The target is the toggled path, prefixed with what an
    [X-Forwarded-Prefix] header of the request asks for. *)
Variable redirect_page : Request -> N -> list (string * string) * string.

Definition redirectTrailingSlash (req : Request) : ResponseWriter :=
  let code := redirect_code (Method req) in
  let (hdr, body) := redirect_page req code in
  mkResponse code hdr body.

(** The engine's answer to a request its routes do not match. *)
Definition unmatched (e : Engine G) (req : Request) : ResponseWriter :=
  if redirects e req then redirectTrailingSlash req else notFound.
End Unmatched.

Arguments unmatched {G} redirect_page e req.

End Gin.

(** ** [web-api.go] *)

Module TaskService.
Import Go JSON Gin.

(** The four package-level [var]s.  Go initialises them, in dependency
    order, before [main] starts; all four stay assignable afterwards. *)
Record Globals : Type := mkGlobals {
  shortGolang : string;
  fullGolang : string;
  rewardDessert : string;
  taskItems : slice string
}.

Definition init : Globals :=
  let shortGolang := "Watch Go crash course" in
  let fullGolang := "Watch Nana's Golang Full Course" in
  let rewardDessert := "Reward myself with a donut" in
  mkGlobals shortGolang fullGolang rewardDessert
            (make_slice [shortGolang; fullGolang; rewardDessert]).

Definition showTask : HandlerFunc Globals := fun c g =>
  (JSON StatusOK [("task", of_slice JStr (taskItems g))] c, g).

Definition helloUser : HandlerFunc Globals := fun c g =>
  (JSON StatusOK [("message", JStr "Hello user. Welcome to our Todolist App!")] c, g).

(** [main] up to the call of [router.Run]: the engine it serves with.
    [runtime.GOMAXPROCS] changes scheduling only. *)
Definition router : Engine Globals :=
  let router := Default in
  let router := GET "/" helloUser router in
  let router := GET "/show-tasks" showTask router in
  router.

Definition main (serverDefault : Request -> ResponseWriter) (reqs : list Request)
  : list ResponseWriter * Globals :=
  Run serverDefault router reqs init.

End TaskService.

(** ** fmt, for the verbs the seeding script uses *)

Module Fmt.
Import Go.

Inductive operand : Type :=
| Uint (n : N)
| Str (s : string).

Definition type_name (a : operand) : string :=
  match a with
  | Uint _ => "uint"
  | Str _ => "string"
  end.

(** The operand under [%v]. *)
Definition plain (a : operand) : string :=
  match a with
  | Uint n => FormatUint n
  | Str s => s
  end.

(** One verb applied to one operand; a verb that does not fit the operand
    prints in Go's [%!verb(type=value)] form. *)
Definition verb (v : ascii) (a : operand) : string :=
  match a with
  | Uint n => if Ascii.eqb v "d" || Ascii.eqb v "v" then FormatUint n
              else "%!" ++ String v ("(uint=" ++ FormatUint n ++ ")")
  | Str s => if Ascii.eqb v "s" || Ascii.eqb v "v" then s
             else "%!" ++ String v ("(string=" ++ s ++ ")")
  end.

Definition extra (args : list operand) : string :=
  match args with
  | [] => EmptyString
  | _ => "%!(EXTRA "
         ++ Join (map (fun a => type_name a ++ "=" ++ plain a) args) ", " ++ ")"
  end.

(** [fmt.Sprintf] for formats built from plain text, [%%], [%d], [%s] and
    [%v] (no flags, widths or precisions). *)
Fixpoint Sprintf (format : string) (args : list operand) : string :=
  match format with
  | EmptyString => extra args
  | String c rest =>
      if Ascii.eqb c "%" then
        match rest with
        | EmptyString => "%!(NOVERB)" ++ extra args
        | String v rest' =>
            if Ascii.eqb v "%" then String v (Sprintf rest' args)
            else match args with
                 | a :: args' => verb v a ++ Sprintf rest' args'
                 | [] => "%!" ++ String v ("(MISSING)" ++ Sprintf rest' [])
                 end
        end
      else String c (Sprintf rest args)
  end.

(** [fmt.Sprintln]: the operands under [%v], a space between any two, a
    newline at the end. *)
Definition Sprintln (args : list operand) : string :=
  Join (map plain args) " " ++ nl.

End Fmt.

(** ** gorm and the relational store behind it *)

Module Gorm.
Import Go.

Inductive Op : Type := OpMigrate | OpInsert | OpQuery.

(** The calls into gorm the script makes. *)
Inductive Call : Type := CallOpen | CallAutoMigrate | CallCreate | CallFind.

Section Store.
(** The model type of the table and its primary key column. *)
Variable Row : Type.
Variable pk : Row -> N.

(** A statement sent to the store. *)
Inductive Stmt : Type :=
| CreateTable
| Insert (rows : list Row)
| SelectAll.

(** The store as the script can observe it: whether it accepts the
    connection, the rows of the one table (in the order a scan returns
    them; [None] while the table does not exist), which kinds of statement
    the store refuses for reasons of its own (permissions, a lost
    connection, a full disk), and the statements on the table received so
    far (the migrator's look-ups in the catalog are not recorded).

    [logger] is what gorm's logger prints during each call.  The script
    opens the connection with an empty [gorm.Config], so the logger is
    gorm's default one, which writes to standard output: the error of a
    failed call, a statement that was slow.  What it prints is gorm's and
    the store's business (timings, error texts); the script only passes
    it on. *)
Record Store : Type := mkStore {
  reachable : bool;
  table : option (list Row);
  refuses : Op -> bool;
  received : list Stmt;
  logger : Call -> string
}.

(** [*gorm.DB] as the script holds it. *)
Record DB : Type := mkDB { dsn : string }.

Definition Error : Type := string.

Definition log (st : Stmt) (s : Store) : Store :=
  mkStore (reachable s) (table s) (refuses s) (received s ++ [st]) (logger s).

Definition set_table (t : list Row) (s : Store) : Store :=
  mkStore (reachable s) (Some t) (refuses s) (received s) (logger s).

(** [gorm.Open]: initialises the dialector and pings the store. *)
Definition Open (dsn : string) (s : Store) : (DB * option Error) * Store :=
  if reachable s then ((mkDB dsn, None), s)
  else ((mkDB dsn, Some "failed to connect"), s).

(** [db.AutoMigrate(&Row{})]: create the table if it is absent; an
    existing table keeps its rows.  (The columns of an existing table are
    taken to fit the struct.) *)
Definition AutoMigrate (db : DB) (s : Store) : option Error * Store :=
  match table s with
  | Some _ => (if refuses s OpMigrate then Some "migration refused" else None, s)
  | None =>
      let s' := log CreateTable s in
      if refuses s OpMigrate then (Some "migration refused", s')
      else (None, set_table [] s')
  end.

Fixpoint distinct (l : list N) : bool :=
  match l with
  | [] => true
  | x :: r => negb (existsb (N.eqb x) r) && distinct r
  end.

(** [db.Create(&rows)] for rows that carry their own primary keys: one
    [INSERT] statement with all the rows, which the store applies as a
    whole or not at all.  (Keys left at zero, which gorm asks the store to
    assign, are outside this model; the script sets all of them.)  Where
    a later scan finds the new rows among those the table held is the
    store's choice; the model puts them last. *)
Definition Create (db : DB) (rows : list Row) (s : Store) : option Error * Store :=
  match rows with
  | [] => (Some "empty slice found", s)
  | _ =>
      let s' := log (Insert rows) s in
      if refuses s OpInsert then (Some "insert refused", s')
      else match table s with
           | None => (Some "relation does not exist", s')
           | Some t =>
               if distinct (map pk (t ++ rows))
               then (None, set_table (t ++ rows) s')
               else (Some "duplicate key value violates unique constraint", s')
           end
  end.

(** [db.Find(&dest)]: [SELECT * FROM table].  When the query fails the
    destination is left as it was; otherwise gorm's [Scan] replaces it by
    a slice made afresh ([reflect.MakeSlice], so not nil even without
    rows) and appends one element per row. *)
Definition Find (db : DB) (dest : slice Row) (s : Store)
  : (slice Row * option Error) * Store :=
  let s' := log SelectAll s in
  if refuses s OpQuery then ((dest, Some "query refused"), s')
  else match table s with
       | None => ((dest, Some "relation does not exist"), s')
       | Some t => ((make_slice t, None), s')
       end.
End Store.

Arguments CreateTable {Row}.
Arguments Insert {Row} rows.
Arguments SelectAll {Row}.
Arguments mkStore {Row} reachable table refuses received logger.
Arguments reachable {Row} s.
Arguments table {Row} s.
Arguments refuses {Row} s _.
Arguments received {Row} s.
Arguments logger {Row} s _.
Arguments Open {Row} dsn s.
Arguments AutoMigrate {Row} db s.
Arguments Create {Row} pk db rows s.
Arguments Find {Row} db dest s.

(** A store nothing goes wrong with. *)
Definition willing : Op -> bool := fun _ => false.

(** A logger with nothing to report. *)
Definition silent : Call -> string := fun _ => EmptyString.

End Gorm.

(** ** The seeding script *)

Module Seeder.
Import Go JSON Fmt Gorm.

Record User : Type := mkUser {
  ID : N;
  Name : string;
  Email : string
}.

(** The [json:"..."] tags of [User], in field order. *)
Definition User_json (u : User) : json :=
  JObj [("id", JUint (ID u)); ("name", JStr (Name u)); ("email", JStr (Email u))].

(** *** The process: the store it talks to, what it has written to
    standard output, and whether it is still running *)

Record World : Type := mkWorld {
  store : Store User;
  stdout : string
}.

Inductive Outcome (A : Type) : Type :=
| Done (a : A)
| Panic (msg : string).
Arguments Done {A} a.
Arguments Panic {A} msg.

Definition Prog (A : Type) : Type := World -> Outcome A * World.

Definition ret {A} (a : A) : Prog A := fun w => (Done a, w).

Definition bind {A B} (m : Prog A) (k : A -> Prog B) : Prog B := fun w =>
  match m w with
  | (Done a, w') => k a w'
  | (Panic msg, w') => (Panic msg, w')
  end.

Definition panic {A} (msg : string) : Prog A := fun w => (Panic msg, w).

Notation "x <- m ;; k" := (bind m (fun x => k))
  (at level 61, m at next level, right associativity).
Notation "m ;; k" := (bind m (fun _ => k))
  (at level 61, right associativity).

(** Calls into gorm act on the store, and what gorm's logger has to say
    about the call goes to standard output. *)
Definition on_store {A} (c : Call) (f : Store User -> A * Store User) : Prog A := fun w =>
  let (a, s) := f (store w) in (Done a, mkWorld s (stdout w ++ logger (store w) c)).

(** Calls into fmt append to standard output. *)
Definition write (t : string) : Prog unit := fun w =>
  (Done tt, mkWorld (store w) (stdout w ++ t)).

Definition Printf (format : string) (args : list operand) : Prog unit :=
  write (Sprintf format args).

Definition Println (args : list operand) : Prog unit :=
  write (Sprintln args).

Fixpoint range {A} (l : list A) (body : A -> Prog unit) : Prog unit :=
  match l with
  | [] => ret tt
  | x :: r => body x ;; range r body
  end.

(** *** The program text *)

Definition Display (u : User) : Prog unit :=
  Printf ("User: ID=%d, Name=%s, Email=%s" ++ nl) [Uint (ID u); Str (Name u); Str (Email u)].

Record UserServiceImpl : Type := mkUserServiceImpl { DB : Gorm.DB }.

(** The slice literal [CreateDummyUsers] starts from. *)
Definition dummyUsers : list User :=
  [ mkUser 1 "Alice Johnson" "alice@example.com";
    mkUser 2 "Bob Smith" "bob@example.com";
    mkUser 3 "Charlie Brown" "charlie@example.com" ].

Definition CreateDummyUsers (s : UserServiceImpl) : Prog unit :=
  _ <- on_store CallCreate (Create ID (DB s) dummyUsers) ;;
  Println [Str "Dummy users created successfully."].

Definition GetAllUsers (s : UserServiceImpl) : Prog (slice User) :=
  let users := nil_slice in
  r <- on_store CallFind (Find (DB s) users) ;;
  let users := fst r in
  ret users.

(** The connection string [main] begins with. *)
Definition dsn : string :=
  "host=localhost user=postgres password=yourpassword dbname=testdb port=5432 sslmode=disable TimeZone=Asia/Jakarta".

Definition main : Prog unit :=
  r <- on_store CallOpen (Open dsn) ;;
  let (db, err) := r in
  match err with
  | Some _ => panic "Failed to connect to database"
  | None =>
      _ <- on_store CallAutoMigrate (AutoMigrate db) ;;
      let userService := mkUserServiceImpl db in
      CreateDummyUsers userService ;;
      users <- GetAllUsers userService ;;
      Println [Str "All Users:"] ;;
      range (elems users) Display ;;
      let (userJSON, _) := Marshal (of_slice User_json users) in
      Println [Str "Users JSON:"; Str userJSON]
  end.

(** *** Reading the JSON back: [json.Unmarshal] into a [[]User] *)

Definition set_field (k : string) (v : json) (u : User) : option User :=
  let exactly f := String.eqb k f in
  let fold f := EqualFold k f in
  let set_id :=
    match v with
    | JNull => Some u
    | JNum lit => option_map (fun n => mkUser n (Name u) (Email u)) (ParseUint lit)
    | _ => None
    end in
  let set_name :=
    match v with
    | JNull => Some u
    | JStr s => Some (mkUser (ID u) s (Email u))
    | _ => None
    end in
  let set_email :=
    match v with
    | JNull => Some u
    | JStr s => Some (mkUser (ID u) (Name u) s)
    | _ => None
    end in
  if exactly "id" then set_id
  else if exactly "name" then set_name
  else if exactly "email" then set_email
  else if fold "id" then set_id else if fold "name" then set_name
  else if fold "email" then set_email
  else Some u.

Fixpoint set_fields (ms : list (string * json)) (u : User) : option User :=
  match ms with
  | [] => Some u
  | (k, v) :: r =>
      match set_field k v u with
      | Some u' => set_fields r u'
      | None => None
      end
  end.

Definition User_of_json (j : json) : option User :=
  match j with
  | JNull => Some (mkUser 0 EmptyString EmptyString)
  | JObj ms => set_fields ms (mkUser 0 EmptyString EmptyString)
  | _ => None
  end.

Fixpoint Users_of_json (l : list json) : option (list User) :=
  match l with
  | [] => Some []
  | j :: r =>
      match User_of_json j, Users_of_json r with
      | Some u, Some us => Some (u :: us)
      | _, _ => None
      end
  end.

(** [None] when [json.Unmarshal] returns an error. *)
Definition Unmarshal (data : string) : option (slice User) :=
  match parse data with
  | Some JNull => Some nil_slice
  | Some (JArr l) => option_map make_slice (Users_of_json l)
  | _ => None
  end.

End Seeder.

(** * What the specification says, in terms of the programs *)

Module JSONSpec.
Import Go JSON.

(** Texts made of ASCII bytes only. *)
Fixpoint ascii_only (s : string) : bool :=
  match s with
  | EmptyString => true
  | String c r => (N_of_ascii c <? 128) && ascii_only r
  end.

(** What [appendString] writes for one ASCII byte. *)
Definition quote_char (c : ascii) : string :=
  let b := N_of_ascii c in
  if htmlSafe b then String c EmptyString else escape_byte b.

(** The input after a number literal cannot continue it. *)
Definition number_ends (s : string) : bool :=
  match s with
  | EmptyString => true
  | String c _ =>
      match num_step NInt c, num_step NZero c with
      | None, None => true
      | _, _ => false
      end
  end.

(** The next [n] bytes, as far as there are any, are continuation bytes of
    a UTF-8 encoding. *)
Fixpoint conts (n : nat) (s : string) : bool :=
  match n, s with
  | S n', String c r => cont 128 191 c && conts n' r
  | _, _ => true
  end.

(** The state of the loop of [appendString] fits the input left. *)
Definition pending_ok (p : pending) (s : string) : bool :=
  match p with
  | Copy n => conts n s
  | _ => true
  end.

End JSONSpec.

Module TaskServiceSpec.
Import Go JSON Gin TaskService.

(** The bytes and the value the spec gives for [/show-tasks]. *)
Definition tasks_body : string :=
  cat ["{"; quoted "task"; ":[";
       quoted "Watch Go crash course"; ",";
       quoted "Watch Nana's Golang Full Course"; ",";
       quoted "Reward myself with a donut"; "]}"].

Definition tasks_value : json :=
  JObj [("task", JArr [JStr "Watch Go crash course";
                       JStr "Watch Nana's Golang Full Course";
                       JStr "Reward myself with a donut"])].

(** The bytes and the value the spec gives for [/]. *)
Definition hello_body : string :=
  cat ["{"; quoted "message"; ":";
       quoted "Hello user. Welcome to our Todolist App!"; "}"].

Definition hello_value : json :=
  JObj [("message", JStr "Hello user. Welcome to our Todolist App!")].

Definition json_header : list (string * string) :=
  [("Content-Type", "application/json; charset=utf-8")].

(** The state a request finds after the server has answered [history]. *)
Definition state_after (serverDefault : Request -> ResponseWriter)
    (history : list Request) : Globals :=
  snd (main serverDefault history).

(** A request is for a route of the program. *)
Definition routed (req : Request) : bool :=
  String.eqb (Method req) "GET"
  && (String.eqb (Path req) "/" || String.eqb (Path req) "/show-tasks").

(** A GET for a registered path with its trailing slash toggled: [/] with
    the slash taken off or doubled, [/show-tasks] with one added. *)
Definition slash_toggled (req : Request) : bool :=
  String.eqb (Method req) "GET"
  && (String.eqb (Path req) EmptyString
      || String.eqb (Path req) "//"
      || String.eqb (Path req) "/show-tasks/").
End TaskServiceSpec.

Module SeederSpec.
Import Go JSON Fmt Gorm Seeder JSONSpec.

(** The handle and the service [main] works with once connected. *)
Definition db : Gorm.DB := mkDB dsn.
Definition userService : UserServiceImpl := mkUserServiceImpl db.

(** The steps of [main] on the store, one after the other: the error each
    call returns (and the script drops) and the store it leaves. *)
Definition migrate_err (s : Store User) : option Error := fst (AutoMigrate db s).
Definition migrated (s : Store User) : Store User := snd (AutoMigrate db s).
Definition insert_err (s : Store User) : option Error :=
  fst (Create ID db dummyUsers (migrated s)).
Definition seeded (s : Store User) : Store User :=
  snd (Create ID db dummyUsers (migrated s)).
Definition fetched (s : Store User) : slice User :=
  fst (fst (Find db nil_slice (seeded s))).
Definition queried (s : Store User) : Store User :=
  snd (Find db nil_slice (seeded s)).

(** The three records of the spec. *)
Definition alice : User := mkUser 1 "Alice Johnson" "alice@example.com".
Definition bob : User := mkUser 2 "Bob Smith" "bob@example.com".
Definition charlie : User := mkUser 3 "Charlie Brown" "charlie@example.com".

(** The line the spec gives for one record. *)
Definition user_line (u : User) : string :=
  cat ["User: ID="; FormatUint (ID u); ", Name="; Name u; ", Email="; Email u; nl].

(** One record as a JSON object with the keys [id], [name], [email]. *)
Definition user_object (u : User) : string :=
  cat ["{"; quoted "id"; ":"; FormatUint (ID u); ",";
       quoted "name"; ":"; quote (Name u); ",";
       quoted "email"; ":"; quote (Email u); "}"].

(** What a run that got its connection adds to standard output, given
    the slice [GetAllUsers] returned: the script's own lines and, where the
    calls into gorm fall between them, what gorm's logger printed. *)
Definition report (lg : Call -> string) (users : slice User) : string :=
  cat [lg CallOpen; lg CallAutoMigrate; lg CallCreate;
       "Dummy users created successfully."; nl;
       lg CallFind;
       "All Users:"; nl;
       cat (map user_line (elems users));
       "Users JSON: "; encode (of_slice User_json users); nl].

(** A user whose id fits a 64-bit [uint] and whose texts are ASCII. *)
Definition plain_user (u : User) : bool :=
  (ID u <? 2 ^ 64) && ascii_only (Name u) && ascii_only (Email u).

(** The bytes of one marshalled user followed by [T]. *)
Definition user_text (u : User) (T : string) : string :=
  String "{"
    (quote "id" ++ String ":"
       (FormatUint (ID u) ++ String ","
          (quote "name" ++ String ":"
             (quote (Name u) ++ String ","
                (quote "email" ++ String ":"
                   (quote (Email u) ++ String "}" T)))))).

(** The elements of a marshalled array of users, up to and including the
    closing bracket. *)
Fixpoint elems_text (u : User) (l : list User) (T : string) : string :=
  user_text u
    match l with
    | [] => String "]" T
    | u' :: l' => String "," (elems_text u' l' T)
    end.

(** A store that has just been set up, and worlds around it. *)
Definition fresh_store : Store User := mkStore true None willing [] silent.
Definition fresh : World := mkWorld fresh_store EmptyString.

(** The world the first run leaves, which a second run starts from. *)
Definition after_first_run : World := snd (main fresh).

(** A store that is down, with gorm saying so. *)
Definition open_failed : Call -> string := fun c =>
  match c with
  | CallOpen => "[error] failed to initialize database, got error dial error" ++ nl
  | _ => EmptyString
  end.

Definition unreachable : World :=
  mkWorld (mkStore false None willing [] open_failed) ("$ go run ." ++ nl).

(** A table in use: two rows of its own, one of them under the id of a
    seed record, and a logger that reports the insert this makes fail and
    finds the query slow. *)
Definition zoe : User :=
  mkUser 18446744073709551615 ("R&D <Zoe\Z> " ++ quoted "Z") "zoe@example.com".
Definition yan : User := mkUser 2 "Yan" "yan@example.com".

Definition chatty : Call -> string := fun c =>
  match c with
  | CallCreate => "[error] duplicate key value violates unique constraint" ++ nl
  | CallFind => "[warn] SLOW SQL" ++ nl
  | _ => EmptyString
  end.

Definition in_use : World :=
  mkWorld (mkStore true (Some [zoe; yan]) willing [] chatty) ("$ go run ." ++ nl).

(** A store whose table is missing and which refuses to create it. *)
Definition locked : World :=
  mkWorld (mkStore true None
             (fun op => match op with OpMigrate => true | _ => false end) []
             (fun c => match c with
                       | CallOpen => EmptyString
                       | _ => "[error] statement failed" ++ nl
                       end))
          EmptyString.

End SeederSpec.

(** * Further properties: definitions *)

Module TaskServiceMore.
Import Go JSON Gin TaskService JSONSpec.

(** The answer to one request taken on its own, in the state the process
    starts with. *)
Definition response_to (serverDefault : Request -> ResponseWriter)
    (req : Request) : ResponseWriter :=
  fst (ServeHTTP serverDefault router req init).

(** The elements of a marshalled array of strings, up to and including the
    closing bracket, followed by [T]. *)
Fixpoint strs_text (s : string) (l : list string) (T : string) : string :=
  quote s ++
    match l with
    | [] => String "]" T
    | s' :: l' => String "," (strs_text s' l' T)
    end.

(** A task list as [encoding/json] writes it, followed by [T]. *)
Definition tasks_text (items : slice string) (T : string) : string :=
  match items with
  | nil_slice => "null" ++ T
  | make_slice [] => "[]" ++ T
  | make_slice (s :: l) => String "[" (strs_text s l T)
  end.

End TaskServiceMore.

Module SeederMore.
Import Go JSON Fmt Gorm Seeder JSONSpec SeederSpec.

(** [strings.Count(s, string(c))]. *)
Fixpoint count_byte (c : ascii) (s : string) : nat :=
  match s with
  | EmptyString => O
  | String x r => ((if Ascii.eqb x c then 1 else 0) + count_byte c r)%nat
  end.

(** The newlines in the line [Display] prints for a record: the one that
    ends it and those its name and email bring along. *)
Definition record_newlines (u : User) : nat :=
  (1 + count_byte newline (Name u) + count_byte newline (Email u))%nat.

(** An id one of the three seed records carries. *)
Definition seed_id (i : N) : bool := (i =? 1) || (i =? 2) || (i =? 3).

(** The newlines gorm's logger prints in the course of a connected run. *)
Definition logger_newlines (lg : Call -> string) : nat :=
  (count_byte newline (lg CallOpen) + count_byte newline (lg CallAutoMigrate)
   + count_byte newline (lg CallCreate) + count_byte newline (lg CallFind))%nat.

(** Rows of a table's own, and stores that hold them. *)
Definition dora : User := mkUser 7 "Dora" "dora@example.com".
Definition eve : User := mkUser 40 "Eve" "eve@example.com".
Definition nellie : User := mkUser 9 ("Nel" ++ nl ++ "lie") "nellie@example.com".

Definition slow_query : Call -> string := fun c =>
  match c with
  | CallFind => "[warn] SLOW SQL" ++ nl
  | _ => EmptyString
  end.

Definition with_guests : World :=
  mkWorld (mkStore true (Some [dora; eve]) willing [] silent) EmptyString.

Definition with_nellie : World :=
  mkWorld (mkStore true (Some [nellie]) willing [] slow_query) EmptyString.

(** A store with an empty table that refuses inserts. *)
Definition read_only : World :=
  mkWorld (mkStore true (Some [])
             (fun op => match op with OpInsert => true | _ => false end) []
             (fun c => match c with
                       | CallCreate => "[error] permission denied" ++ nl
                       | _ => EmptyString
                       end))
          EmptyString.

End SeederMore.

(** * Strings *)

Module StringFacts.
Import Go.

Lemma append_assoc (a b c : string) : (a ++ b) ++ c = a ++ (b ++ c).
Proof. induction a as [|x a IH]; simpl; [reflexivity | now rewrite IH]. Qed.

Lemma append_nil_r (a : string) : a ++ EmptyString = a.
Proof. induction a as [|x a IH]; simpl; [reflexivity | now rewrite IH]. Qed.

Lemma length_append (a b : string) :
  String.length (a ++ b) = (String.length a + String.length b)%nat.
Proof. induction a as [|x a IH]; simpl; [reflexivity | now rewrite IH]. Qed.

Lemma has_byte_append c a b : has_byte c (a ++ b) = has_byte c a || has_byte c b.
Proof. induction a as [|x a IH]; cbn; [reflexivity | now rewrite IH, orb_assoc]. Qed.

End StringFacts.

(** * encoding/json: what is written can be read back, and fits a line *)

Module JSONFacts.
Import Go JSON JSONSpec StringFacts.

(** *** Strings *)

Lemma quote_from_step c s :
  (N_of_ascii c <? 128) = true ->
  quote_from Fresh (String c s) = quote_char c ++ quote_from Fresh s.
Proof.
  intros H. cbn [quote_from]. rewrite H. unfold quote_char.
  destruct (htmlSafe (N_of_ascii c)); reflexivity.
Qed.

Lemma unquote_char c T :
  (N_of_ascii c <? 128) = true ->
  unquote_from Fresh (quote_char c ++ T)
  = prepend (String c EmptyString) (unquote_from Fresh T).
Proof.
  destruct c as [b0 b1 b2 b3 b4 b5 b6 b7].
  destruct b7; [intros H; destruct b0, b1, b2, b3, b4, b5, b6; discriminate H|].
  intros _.
  destruct b0, b1, b2, b3, b4, b5, b6; reflexivity.
Qed.

(** Reading a written ASCII text, up to its closing quote, gives the text. *)
Lemma unquote_quote s : forall T,
  ascii_only s = true ->
  unquote_from Fresh (quote_from Fresh s ++ String dquote T) = Some (s, T).
Proof.
  induction s as [|c s IH]; intros T H.
  - reflexivity.
  - cbn [ascii_only] in H. apply andb_true_iff in H. destruct H as [Hc Hs].
    rewrite (quote_from_step c s Hc), append_assoc, (unquote_char c _ Hc).
    now rewrite (IH T Hs).
Qed.

Lemma parse_value_string fuel s T :
  ascii_only s = true ->
  parse_value (S fuel) (quote s ++ T) = Some (JStr s, T).
Proof.
  intros H. unfold quote. cbn [append].
  rewrite append_assoc. cbn [append].
  change (parse_value (S fuel) (String dquote (quote_from Fresh s ++ String dquote T)))
    with (match unquote_from Fresh (quote_from Fresh s ++ String dquote T) with
          | Some (t, r) => Some (JStr t, r)
          | None => None
          end).
  now rewrite (unquote_quote s T H).
Qed.

(** *** Numbers *)

Lemma to_uint_normal n : Decimal.unorm (N.to_uint n) = N.to_uint n.
Proof.
  rewrite <- (DecimalN.Unsigned.of_to n) at 2.
  now rewrite DecimalN.Unsigned.to_of.
Qed.

Lemma scan_digits d T :
  number_ends T = true ->
  scan_number NInt (NilEmpty.string_of_uint d ++ T)
  = Some (NilEmpty.string_of_uint d, T).
Proof.
  intros HT. induction d; cbn [NilEmpty.string_of_uint append];
    try (cbn [scan_number]; change (num_step NInt _) with (Some NInt);
         cbv iota beta; rewrite IHd; reflexivity).
  destruct T as [|c r]; [reflexivity|].
  cbn [number_ends] in HT. cbn [scan_number].
  destruct (num_step NInt c); [destruct (num_step NZero c); discriminate|].
  reflexivity.
Qed.

(** The digits of a [uint] are one number literal. *)
Lemma scan_uint n T :
  number_ends T = true ->
  scan_number NBegin (FormatUint n ++ T) = Some (FormatUint n, T).
Proof.
  intros HT. unfold FormatUint.
  pose proof (to_uint_normal n) as Hn.
  destruct (N.to_uint n) as [|d|d|d|d|d|d|d|d|d|d] eqn:E;
    try (cbn [NilEmpty.string_of_uint append scan_number];
         change (num_step NBegin _) with (Some NInt);
         cbv iota beta; rewrite (scan_digits d T HT); reflexivity).
  - exfalso. now apply (unorm_nonnil Decimal.Nil).
  - (* a leading zero: the number is zero *)
    assert (d = Decimal.Nil) as ->.
    { unfold Decimal.unorm in Hn. cbn [Decimal.nzhead] in Hn.
      destruct (Decimal.nzhead d) eqn:Ed; try (exfalso; revert Ed; rewrite Hn; apply nzhead_nonzero).
      now inversion Hn. }
    cbn [NilEmpty.string_of_uint append scan_number].
    change (num_step NBegin "0"%char) with (Some NZero). cbv iota beta.
    destruct T as [|c r]; [reflexivity|].
    cbn [number_ends] in HT. cbn [scan_number].
    destruct (num_step NZero c); [destruct (num_step NInt c); discriminate|].
    reflexivity.
Qed.

Lemma parse_value_digit fuel c r :
  is_digit c = true ->
  parse_value (S fuel) (String c r)
  = match scan_number NBegin (String c r) with
    | Some (lit, r') => Some (JNum lit, r')
    | None => None
    end.
Proof.
  destruct c as [b0 b1 b2 b3 b4 b5 b6 b7].
  destruct b0, b1, b2, b3, b4, b5, b6, b7; intros H; try discriminate H; reflexivity.
Qed.

Lemma FormatUint_head n :
  exists c r, FormatUint n = String c r /\ is_digit c = true.
Proof.
  unfold FormatUint. pose proof (to_uint_normal n) as Hn.
  destruct (N.to_uint n) eqn:E; cbn [NilEmpty.string_of_uint];
    try (eexists; eexists; split; reflexivity).
  exfalso. now apply (unorm_nonnil Decimal.Nil).
Qed.

Lemma parse_value_uint fuel n T :
  number_ends T = true ->
  parse_value (S fuel) (FormatUint n ++ T) = Some (JNum (FormatUint n), T).
Proof.
  intros HT. pose proof (scan_uint n T HT) as Hs.
  destruct (FormatUint_head n) as (c & r & E & Hc).
  rewrite E in *. cbn [append] in *.
  now rewrite (parse_value_digit fuel c _ Hc), Hs.
Qed.

Lemma ParseUint_FormatUint n :
  n < 2 ^ 64 -> ParseUint (FormatUint n) = Some n.
Proof.
  intros Hn. destruct (FormatUint_head n) as (c & r & E & _).
  unfold ParseUint. rewrite E, <- E. unfold FormatUint.
  rewrite NilEmpty.usu, DecimalN.Unsigned.of_to.
  apply N.ltb_lt in Hn. now rewrite Hn.
Qed.

(** *** Members and elements *)

Lemma parse_members_unfold f k V :
  ascii_only k = true ->
  parse_members (S f) (quote k ++ String ":" V)
  = match parse_value f V with
    | Some (v, r3) =>
        match skip_ws r3 with
        | String c' r4 =>
            if N_of_ascii c' =? 44 then
              match parse_members f r4 with
              | Some (ms, r5) => Some ((k, v) :: ms, r5)
              | None => None
              end
            else if N_of_ascii c' =? 125 then Some ([(k, v)], r4)
            else None
        | EmptyString => None
        end
    | None => None
    end.
Proof.
  intros H. unfold quote. cbn [append]. rewrite append_assoc. cbn [append].
  change (parse_members (S f)
            (String dquote (quote_from Fresh k ++ String dquote (String ":" V))))
    with (match unquote_from Fresh (quote_from Fresh k ++ String dquote (String ":" V)) with
          | Some (k, r1) =>
              match skip_ws r1 with
              | String c r2 =>
                  if N_of_ascii c =? 58 then
                    match parse_value f r2 with
                    | Some (v, r3) =>
                        match skip_ws r3 with
                        | String c' r4 =>
                            if N_of_ascii c' =? 44 then
                              match parse_members f r4 with
                              | Some (ms, r5) => Some ((k, v) :: ms, r5)
                              | None => None
                              end
                            else if N_of_ascii c' =? 125 then Some ([(k, v)], r4)
                            else None
                        | EmptyString => None
                        end
                    | None => None
                    end
                  else None
              | EmptyString => None
              end
          | None => None
          end).
  rewrite (unquote_quote k _ H). reflexivity.
Qed.

Lemma parse_members_more f k V v R ms R' :
  ascii_only k = true ->
  parse_value f V = Some (v, String "," R) ->
  parse_members f R = Some (ms, R') ->
  parse_members (S f) (quote k ++ String ":" V) = Some ((k, v) :: ms, R').
Proof.
  intros Hk Hv Hm. rewrite (parse_members_unfold f k V Hk), Hv.
  change (skip_ws (String "," R)) with (String "," R). cbv iota beta.
  change (N_of_ascii "," =? 44) with true. cbv iota. now rewrite Hm.
Qed.

Lemma parse_members_last f k V v R :
  ascii_only k = true ->
  parse_value f V = Some (v, String "}" R) ->
  parse_members (S f) (quote k ++ String ":" V) = Some ([(k, v)], R).
Proof.
  intros Hk Hv. rewrite (parse_members_unfold f k V Hk), Hv. reflexivity.
Qed.

Lemma parse_value_object f k X :
  parse_value (S f) (String "{" (quote k ++ X))
  = match parse_members f (quote k ++ X) with
    | Some (ms, r') => Some (JObj ms, r')
    | None => None
    end.
Proof. reflexivity. Qed.

Lemma parse_elements_unfold f s :
  parse_elements (S f) s
  = match parse_value f s with
    | Some (v, r) =>
        match skip_ws r with
        | String c r' =>
            if N_of_ascii c =? 44 then
              match parse_elements f r' with
              | Some (vs, r'') => Some (v :: vs, r'')
              | None => None
              end
            else if N_of_ascii c =? 93 then Some ([v], r')
            else None
        | EmptyString => None
        end
    | None => None
    end.
Proof. reflexivity. Qed.

(** *** No newline in what is written *)

Lemma hex_digit_not_nl n : Ascii.eqb (hex_digit n) newline = false.
Proof.
  unfold hex_digit. destruct (N.to_nat n) as [|m]; [reflexivity|].
  do 15 (destruct m as [|m]; [reflexivity|]). reflexivity.
Qed.

Lemma escape_byte_no_nl b : has_byte newline (escape_byte b) = false.
Proof.
  unfold escape_byte.
  destruct (b =? 92) eqn:E1; [apply N.eqb_eq in E1; subst; reflexivity|].
  destruct (b =? 34) eqn:E2; [apply N.eqb_eq in E2; subst; reflexivity|].
  cbn [orb].
  repeat match goal with |- context [if ?c then _ else _] => destruct c; [reflexivity|] end.
  cbn. now rewrite !hex_digit_not_nl.
Qed.

Lemma not_nl_of_byte c :
  (N_of_ascii c =? 10) = false -> Ascii.eqb c newline = false.
Proof.
  intros H. destruct (Ascii.eqb_spec c newline) as [->|]; [discriminate H | reflexivity].
Qed.

Lemma htmlSafe_not_nl c : htmlSafe (N_of_ascii c) = true -> Ascii.eqb c newline = false.
Proof.
  intros H. apply not_nl_of_byte. destruct (N.eqb_spec (N_of_ascii c) 10) as [E|]; [|reflexivity].
  rewrite E in H. discriminate H.
Qed.

Lemma high_not_nl c : (N_of_ascii c <? 128) = false -> Ascii.eqb c newline = false.
Proof.
  intros H. apply not_nl_of_byte. destruct (N.eqb_spec (N_of_ascii c) 10) as [E|]; [|reflexivity].
  rewrite E in H. discriminate H.
Qed.

Lemma cont_not_nl c : cont 128 191 c = true -> Ascii.eqb c newline = false.
Proof.
  unfold cont. intros H. apply andb_true_iff in H. destruct H as [H _].
  apply high_not_nl. apply N.leb_le in H. apply N.ltb_ge. exact H.
Qed.

Lemma cont_weaken lo hi c :
  128 <= lo -> hi <= 191 -> cont lo hi c = true -> cont 128 191 c = true.
Proof.
  unfold cont. intros Hlo Hhi H. apply andb_true_iff in H. destruct H as [H1 H2].
  apply N.leb_le in H1, H2. apply andb_true_iff. split; apply N.leb_le; lia.
Qed.

Lemma rune_size_conts b rest n : rune_size b rest = S n -> conts n rest = true.
Proof.
  unfold rune_size.
  destruct rest as [|c1 [|c2 [|c3 r]]];
  repeat match goal with
         | |- context [if ?c then _ else _] => destruct c eqn:?
         end; intros H; try discriminate H; injection H as <-; cbn [conts].
  all: repeat match goal with
         | H : _ && _ = true |- _ => apply andb_true_iff in H; destruct H
         end.
  all: repeat match goal with
         | H : cont ?lo ?hi ?c = true |- context [cont 128 191 ?c] =>
             rewrite (cont_weaken lo hi c ltac:(lia) ltac:(lia) H)
         end.
  all: try reflexivity.
Qed.

Lemma pending_next_ok n c r :
  conts (S n) (String c r) = true ->
  pending_ok (match n with O => Fresh | _ => Copy n end) r = true.
Proof.
  cbn [conts]. intros H. apply andb_true_iff in H. destruct H as [_ H].
  destruct n; [reflexivity | exact H].
Qed.

Lemma quote_from_fresh_no_nl c rest
  (IH : forall p, pending_ok p rest = true -> has_byte newline (quote_from p rest) = false) :
  has_byte newline (quote_from Fresh (String c rest)) = false.
Proof.
  cbn [quote_from]. cbv zeta.
  destruct (N_of_ascii c <? 128) eqn:Hlow.
  - destruct (htmlSafe (N_of_ascii c)) eqn:Hs.
    + cbn [has_byte]. now rewrite (htmlSafe_not_nl c Hs), (IH Fresh eq_refl).
    + now rewrite has_byte_append, escape_byte_no_nl, (IH Fresh eq_refl).
  - destruct (rune_size (N_of_ascii c) rest) as [|n] eqn:Hr.
    + rewrite has_byte_append. now rewrite (IH Fresh eq_refl).
    + destruct (line_sep (N_of_ascii c) rest) as [d|] eqn:Hd.
      * rewrite has_byte_append. cbn [has_byte].
        rewrite (IH (Drop n) eq_refl), orb_false_r.
        unfold line_sep in Hd.
        destruct rest as [|c1 [|c2 r]]; try discriminate Hd.
        destruct (_ && _); [|discriminate Hd]. injection Hd as <-.
        now rewrite hex_digit_not_nl.
      * cbn [has_byte]. rewrite (high_not_nl c Hlow).
        apply IH. destruct n; [reflexivity|].
        exact (rune_size_conts _ _ _ Hr).
Qed.

(** Control bytes are always escaped and copied bytes are never below
    128, so no newline gets into a written text. *)
Lemma quote_from_no_nl s : forall p,
  pending_ok p s = true -> has_byte newline (quote_from p s) = false.
Proof.
  induction s as [|c rest IH]; intros p Hp; [reflexivity|].
  destruct p as [|[|n]|[|n]];
    try (change (has_byte newline (quote_from Fresh (String c rest)) = false);
         apply quote_from_fresh_no_nl; exact IH);
    cbn [quote_from].
  - cbn [pending_ok] in Hp. cbn [has_byte].
    pose proof Hp as Hc. cbn [conts] in Hc.
    apply andb_true_iff in Hc. destruct Hc as [Hc _].
    rewrite (cont_not_nl c Hc). apply IH. exact (pending_next_ok n c rest Hp).
  - apply IH. now destruct n.
Qed.

Lemma quote_no_nl s : has_byte newline (quote s) = false.
Proof.
  unfold quote. cbn [has_byte]. rewrite has_byte_append.
  now rewrite (quote_from_no_nl s Fresh eq_refl).
Qed.

Lemma FormatUint_no_nl n : has_byte newline (FormatUint n) = false.
Proof.
  unfold FormatUint. induction (N.to_uint n); cbn; auto.
Qed.

Lemma Join_no_nl l :
  Forall (fun s => has_byte newline s = false) l ->
  has_byte newline (Join l ",") = false.
Proof.
  unfold Join. induction 1 as [|s l Hs Hl IH]; [reflexivity|].
  cbn [String.concat]. destruct l as [|s' l']; [exact Hs|].
  rewrite !has_byte_append, Hs, IH. reflexivity.
Qed.

End JSONFacts.

(** * The task service: proofs *)

Module TaskServiceFacts.
Import Go JSON Gin TaskService TaskServiceSpec.

Section Serving.
Variable serverDefault : Request -> ResponseWriter.

Lemma helloUser_pure c g : snd (helloUser c g) = g.
Proof. reflexivity. Qed.

Lemma showTask_pure c g : snd (showTask c g) = g.
Proof. reflexivity. Qed.

Lemma getValue_router method path :
  getValue (routes router) method path =
  if String.eqb "GET" method && String.eqb "/" path then Some helloUser
  else if String.eqb "GET" method && String.eqb "/show-tasks" path then Some showTask
  else None.
Proof. reflexivity. Qed.

Lemma ServeHTTP_state req g : snd (ServeHTTP serverDefault router req g) = g.
Proof.
  unfold ServeHTTP. rewrite getValue_router.
  destruct (String.eqb "GET" (Method req) && String.eqb "/" (Path req)).
  - reflexivity.
  - destruct (String.eqb "GET" (Method req) && String.eqb "/show-tasks" (Path req));
      reflexivity.
Qed.

Lemma Run_state reqs : forall g, snd (Run serverDefault router reqs g) = g.
Proof.
  induction reqs as [|req rest IH]; intros g; simpl.
  - reflexivity.
  - pose proof (ServeHTTP_state req g) as Hs.
    destruct (ServeHTTP serverDefault router req g) as [w g1]. simpl in Hs. subst g1.
    specialize (IH g).
    destruct (Run serverDefault router rest g) as [ws g2]. exact IH.
Qed.

Lemma state_after_init history : state_after serverDefault history = init.
Proof. unfold state_after, main. apply Run_state. Qed.

Lemma Run_repeat req w n :
  ServeHTTP serverDefault router req init = (w, init) ->
  fst (Run serverDefault router (repeat req n) init) = repeat w n.
Proof.
  intros Hs. induction n as [|n IH]; simpl.
  - reflexivity.
  - rewrite Hs.
    destruct (Run serverDefault router (repeat req n) init) as [ws g2].
    simpl in IH. simpl. now rewrite IH.
Qed.
End Serving.

End TaskServiceFacts.

(** *** Requests no route matches *)

Module RoutingFacts.
Import Go JSON Gin TaskService TaskServiceSpec StringFacts TaskServiceFacts.

Lemma last_drop p c : last_byte p = Some c -> p = drop_last p ++ String c EmptyString.
Proof.
  induction p as [|a p IH]; [discriminate|].
  destruct p as [|b p].
  - intros [= ->]. reflexivity.
  - intros H. change (drop_last (String a (String b p)))
      with (String a (drop_last (String b p))).
    cbn [append]. f_equal. apply IH. exact H.
Qed.

Lemma last_byte_append p c : last_byte (p ++ String c EmptyString) = Some c.
Proof.
  induction p as [|a p IH]; [reflexivity|].
  cbn [append]. destruct p; [reflexivity|]. exact IH.
Qed.

Lemma toggle_slash_last p :
  toggle_slash p = p ++ "/" \/ p = toggle_slash p ++ "/".
Proof.
  unfold toggle_slash. destruct (last_byte p) as [c|] eqn:E; [|now left].
  destruct (Ascii.eqb c "/") eqn:Ec.
  - apply Ascii.eqb_eq in Ec. subst c.
    destruct (Nat.ltb 1 (String.length p)); [right | left; reflexivity].
    now apply last_drop.
  - left. destruct c as [[] [] [] [] [] [] [] []]; try reflexivity. discriminate.
Qed.

Lemma toggle_to_root p : toggle_slash p = "/" -> p = EmptyString \/ p = "//".
Proof.
  intros H. destruct (toggle_slash_last p) as [E|E].
  - left. rewrite H in E. destruct p as [|a p]; [reflexivity|].
    cbn [append] in E. injection E as _ E. destruct p; discriminate.
  - right. now rewrite H in E.
Qed.

Lemma toggle_to_show_tasks p : toggle_slash p = "/show-tasks" -> p = "/show-tasks/".
Proof.
  intros H. destruct (toggle_slash_last p) as [E|E].
  - rewrite H in E. pose proof (last_byte_append p "/") as L.
    rewrite <- E in L. discriminate.
  - now rewrite H in E.
Qed.

Lemma redirects_router req :
  routed req = false -> redirects router req = slash_toggled req.
Proof.
  intros Hr. unfold redirects, tsr, slash_toggled.
  rewrite getValue_router.
  rewrite (String.eqb_sym "GET").
  destruct (String.eqb (Method req) "GET") eqn:Hm.
  - apply String.eqb_eq in Hm. rewrite Hm.
    unfold routed in Hr. rewrite Hm in Hr. cbn [String.eqb Ascii.eqb Bool.eqb andb] in Hr.
    apply orb_false_iff in Hr. destruct Hr as [Hp _]. rewrite Hp.
    cbn [andb negb].
    change (String.eqb "GET" "CONNECT") with false. cbn [negb andb].
    destruct (String.eqb "/" (toggle_slash (Path req))) eqn:E1.
    + apply String.eqb_eq in E1. symmetry in E1.
      destruct (toggle_to_root _ E1) as [-> | ->]; reflexivity.
    + destruct (String.eqb "/show-tasks" (toggle_slash (Path req))) eqn:E2.
      * apply String.eqb_eq in E2. symmetry in E2.
        now rewrite (toggle_to_show_tasks _ E2).
      * symmetry. apply orb_false_iff. split; [apply orb_false_iff; split|];
          apply String.eqb_neq; intros Hp'; rewrite Hp' in *; discriminate.
  - cbn [andb]. apply andb_false_r.
Qed.

End RoutingFacts.


Import Go JSON Gin TaskService TaskServiceSpec.


Import TaskServiceFacts RoutingFacts.

(** C1.  Every GET request to [/show-tasks], whatever its query, headers
    and body and whatever requests the server has answered before, gets
    status 200 and a body that is the JSON object with the one member
    [task], an array of the three task strings in the order of the source
    literal.  The body is the same sequence of bytes every time: it does not
    depend on the history, and [n] such requests in a row get [n] copies of
    the same response. *)
Theorem show_tasks_response :
  forall (serverDefault : Request -> ResponseWriter) (history : list Request)
         (query : string) (header : list (string * string)) (body : string),
    let req := mkRequest "GET" "/show-tasks" query header body in
    let w := fst (ServeHTTP serverDefault router req
                    (state_after serverDefault history)) in
    Status w = 200
    /\ RespHeader w = json_header
    /\ Written w = tasks_body
    /\ parse (Written w) = Some tasks_value
    /\ forall n, fst (main serverDefault (repeat req n))
                 = repeat (mkResponse 200 json_header tasks_body) n.
Proof.
  intros sd history query header body req w.
  subst w. rewrite state_after_init.
  assert (Hs : ServeHTTP sd router req init
               = (mkResponse 200 json_header tasks_body, init))
    by reflexivity.
  rewrite Hs. cbn [fst Status RespHeader Written].
  split; [reflexivity|]. split; [reflexivity|]. split; [reflexivity|].
  split.
  - vm_compute. reflexivity.
  - intros n. unfold main. now apply Run_repeat.
Qed.

(** C2.  Every GET request to [/] gets status 200 and the JSON object with
    the one member [message] and the greeting.  The response depends on
    nothing the request carries and on nothing the program holds (no
    input), the handler leaves the package-level variables as they were (no
    side effects), and there is no outcome other than this response, for
    any number of repeated calls. *)
Theorem hello_user_response :
  forall (serverDefault : Request -> ResponseWriter) (g : Globals)
         (query : string) (header : list (string * string)) (body : string),
    let req := mkRequest "GET" "/" query header body in
    ServeHTTP serverDefault router req g
      = (mkResponse 200 json_header hello_body, g)
    /\ parse hello_body = Some hello_value
    /\ forall n, fst (main serverDefault (repeat req n))
                 = repeat (mkResponse 200 json_header hello_body) n.
Proof.
  intros sd g query header body req.
  assert (Hs : forall g', ServeHTTP sd router req g'
                          = (mkResponse 200 json_header hello_body, g'))
    by reflexivity.
  split; [apply Hs|]. split.
  - vm_compute. reflexivity.
  - intros n. unfold main. apply Run_repeat. apply Hs.
Qed.

(** C8.  The task list is an invariant of the service.  At process start
    it is the three strings in the order of the source literal; neither
    handler changes the package-level variables; so after any sequence of
    requests the variables are what they were at start, and that is the
    list every handler call finds. *)
Theorem task_list_invariant :
  forall (serverDefault : Request -> ResponseWriter) (history : list Request),
    taskItems init = make_slice ["Watch Go crash course";
                                 "Watch Nana's Golang Full Course";
                                 "Reward myself with a donut"]
    /\ (forall c g, snd (helloUser c g) = g)
    /\ (forall c g, snd (showTask c g) = g)
    /\ (forall req g, snd (ServeHTTP serverDefault router req g) = g)
    /\ state_after serverDefault history = init.
Proof.
  intros sd history.
  split; [reflexivity|]. split; [intros; apply helloUser_pure|].
  split; [intros; apply showTask_pure|].
  split; [apply ServeHTTP_state | apply state_after_init].
Qed.

(** C9, as the router answers.  The program registers exactly two routes,
    GET [/] with [helloUser] and GET [/show-tasks] with [showTask].  A
    request with any other method or path reaches no handler of the
    program and leaves its variables untouched; the engine answers it
    itself.  Its answer is the not-found response (404, [text/plain],
    [404 page not found]), except for a GET whose path is a registered path
    with the trailing slash toggled (the empty path, [//] and
    [/show-tasks/]): that one is redirected with status 301. *)
Theorem only_two_routes :
  forall (redirect_page : Request -> N -> list (string * string) * string)
         (req : Request) (g : Globals),
    routed req = false ->
    let answer := unmatched redirect_page router in
    routes router = [("GET", "/", helloUser); ("GET", "/show-tasks", showTask)]
    /\ getValue (routes router) (Method req) (Path req) = None
    /\ ServeHTTP answer router req g = (answer req, g)
    /\ (slash_toggled req = false ->
        answer req = mkResponse 404 [("Content-Type", "text/plain")] "404 page not found")
    /\ (slash_toggled req = true -> Status (answer req) = 301).
Proof.
  intros page req g Hr answer.
  assert (Hn : getValue (routes router) (Method req) (Path req) = None).
  { rewrite getValue_router. unfold routed in Hr.
    rewrite (String.eqb_sym "GET"), (String.eqb_sym "/"), (String.eqb_sym "/show-tasks").
    destruct (String.eqb (Method req) "GET"); simpl in *.
    - apply orb_false_iff in Hr. destruct Hr as [H1 H2]. now rewrite H1, H2.
    - reflexivity. }
  split; [reflexivity|]. split; [exact Hn|]. split.
  - unfold ServeHTTP. now rewrite Hn.
  - subst answer. unfold unmatched. rewrite (redirects_router req Hr).
    split; intros Ht; rewrite Ht.
    + reflexivity.
    + unfold redirectTrailingSlash, slash_toggled in *.
      apply andb_true_iff in Ht. destruct Ht as [Hm _].
      unfold redirect_code. rewrite Hm.
      now destruct (page req StatusMovedPermanently).
Qed.

Lemma only_two_routes_witness :
  let unknown := mkRequest "GET" "/unknown" EmptyString [] EmptyString in
  let post := mkRequest "POST" "/show-tasks" EmptyString [] "{}" in
  let not_found := mkResponse 404 [("Content-Type", "text/plain")] "404 page not found" in
  (routed unknown = false /\ routed post = false)
  /\ forall page,
       ServeHTTP (unmatched page router) router unknown init = (not_found, init)
       /\ ServeHTTP (unmatched page router) router post init = (not_found, init).
Proof.
  split; [split; reflexivity|]. intros page. split.
  - destruct (only_two_routes page
                (mkRequest "GET" "/unknown" EmptyString [] EmptyString) init eq_refl)
      as (_ & _ & Hs & Hn & _).
    rewrite Hs, (Hn eq_refl). reflexivity.
  - destruct (only_two_routes page
                (mkRequest "POST" "/show-tasks" EmptyString [] "{}") init eq_refl)
      as (_ & _ & Hs & Hn & _).
    rewrite Hs, (Hn eq_refl). reflexivity.
Defined.

(** C9 as stated fails: a GET of [/show-tasks/] is no route of the program,
    and the engine does not answer it not-found but redirects it, with
    status 301. *)
Lemma trailing_slash_is_redirected :
  let req := mkRequest "GET" "/show-tasks/" EmptyString [] EmptyString in
  routed req = false
  /\ getValue (routes router) (Method req) (Path req) = None
  /\ redirects router req = true
  /\ forall page,
       Status (fst (ServeHTTP (unmatched page router) router req init)) = 301.
Proof.
  split; [reflexivity|]. split; [reflexivity|]. split; [reflexivity|].
  intros page.
  change (fst (ServeHTTP (unmatched page router) router
                 (mkRequest "GET" "/show-tasks/" EmptyString [] EmptyString) init))
    with (redirectTrailingSlash page
            (mkRequest "GET" "/show-tasks/" EmptyString [] EmptyString)).
  unfold redirectTrailingSlash.
  now destruct (page _ _).
Qed.

Module SeederFacts.
Import Go JSON Fmt Gorm Seeder JSONSpec SeederSpec StringFacts JSONFacts.

(** *** One step of the process at a time *)

Lemma on_store_run {A} c (f : Store User -> A * Store User) (w : World) :
  on_store c f w
  = (Done (fst (f (store w))),
     mkWorld (snd (f (store w))) (stdout w ++ logger (store w) c)).
Proof. unfold on_store. now destruct (f (store w)). Qed.

Lemma bind_done {A B} (m : Prog A) (k : A -> Prog B) w a w' :
  m w = (Done a, w') -> bind m k w = k a w'.
Proof. intros H. unfold bind. now rewrite H. Qed.

Lemma Println_run args w :
  Println args w = (Done tt, mkWorld (store w) (stdout w ++ Sprintln args)).
Proof. reflexivity. Qed.

Lemma Display_run u w :
  Display u w = (Done tt, mkWorld (store w) (stdout w ++ user_line u)).
Proof. reflexivity. Qed.

Lemma range_Display_run (l : list User) : forall w,
  range l Display w = (Done tt, mkWorld (store w) (stdout w ++ cat (map user_line l))).
Proof.
  induction l as [|u l IH]; intros w.
  - simpl. rewrite append_nil_r. now destruct w.
  - cbn [range map cat].
    rewrite (bind_done _ _ _ _ _ (Display_run u w)), IH.
    cbn [store stdout]. now rewrite append_assoc.
Qed.

Lemma CreateDummyUsers_run svc w :
  CreateDummyUsers svc w =
  (Done tt,
   mkWorld (snd (Create ID (DB svc) dummyUsers (store w)))
           (stdout w ++ logger (store w) CallCreate
              ++ "Dummy users created successfully." ++ nl)).
Proof.
  unfold CreateDummyUsers.
  rewrite (bind_done _ _ _ _ _ (on_store_run _ _ w)).
  rewrite Println_run. cbn [store stdout]. now rewrite append_assoc.
Qed.

Lemma GetAllUsers_run svc w :
  GetAllUsers svc w =
  (Done (fst (fst (Find (DB svc) nil_slice (store w)))),
   mkWorld (snd (Find (DB svc) nil_slice (store w)))
           (stdout w ++ logger (store w) CallFind)).
Proof.
  unfold GetAllUsers.
  rewrite (bind_done _ _ _ _ _ (on_store_run _ _ w)). reflexivity.
Qed.

(** *** The logger is the same throughout a run *)

Lemma AutoMigrate_logger d (s : Store User) : logger (snd (AutoMigrate d s)) = logger s.
Proof.
  unfold AutoMigrate, log, set_table.
  destruct (table s); destruct (refuses s OpMigrate); reflexivity.
Qed.

Lemma Create_logger d rows (s : Store User) :
  logger (snd (Create ID d rows s)) = logger s.
Proof.
  unfold Create, log, set_table. destruct rows as [|r rows]; [reflexivity|].
  destruct (refuses s OpInsert); [reflexivity|].
  destruct (table s) as [t|]; [|reflexivity].
  cbn [table]. destruct (distinct (map ID (t ++ r :: rows))); reflexivity.
Qed.

Lemma Find_logger d dest (s : Store User) :
  logger (snd (Find d dest s)) = logger s.
Proof.
  unfold Find, log. destruct (refuses s OpQuery); [reflexivity|].
  now destruct (table s).
Qed.

Lemma seeded_logger s : logger (seeded s) = logger s.
Proof. unfold seeded, migrated. now rewrite Create_logger, AutoMigrate_logger. Qed.

(** *** The whole run *)

Lemma main_unreachable w :
  reachable (store w) = false ->
  main w = (Panic "Failed to connect to database",
            mkWorld (store w) (stdout w ++ logger (store w) CallOpen)).
Proof.
  intros H. destruct w as [s out]. simpl in H.
  unfold main.
  rewrite (bind_done _ _ _ _ _ (on_store_run _ _ _)).
  unfold Open. cbn [store stdout]. rewrite H. reflexivity.
Qed.

Lemma main_reachable w :
  reachable (store w) = true ->
  main w = (Done tt, mkWorld (queried (store w))
                             (stdout w ++ report (logger (store w)) (fetched (store w)))).
Proof.
  intros H. destruct w as [s out]. simpl in H.
  unfold main.
  rewrite (bind_done _ _ _ _ _ (on_store_run _ _ _)).
  unfold Open at 1 2. cbn [store stdout]. rewrite H. cbn [fst snd].
  rewrite (bind_done _ _ _ _ _ (on_store_run _ _ _)).
  rewrite (bind_done _ _ _ _ _ (CreateDummyUsers_run _ _)).
  rewrite (bind_done _ _ _ _ _ (GetAllUsers_run _ _)).
  rewrite (bind_done _ _ _ _ _ (Println_run _ _)).
  rewrite (bind_done _ _ _ _ _ (range_Display_run _ _)).
  cbn [store stdout DB fst snd Marshal].
  rewrite Println_run. cbn [store stdout].
  fold db. fold (migrated s). fold (seeded s).
  rewrite (seeded_logger s).
  change (logger (migrated s) CallCreate)
    with (logger (snd (AutoMigrate db s)) CallCreate).
  rewrite (AutoMigrate_logger db s).
  unfold queried, fetched, report.
  f_equal. f_equal. cbn [cat Sprintln].
  rewrite !append_assoc, ?append_nil_r. reflexivity.
Qed.

(** *** The report for a slice that is not nil *)

Lemma encode_user u : encode (User_json u) = user_object u.
Proof.
  unfold user_object, User_json, JUint.
  cbn [encode map Join String.concat encode_member fst snd cat].
  rewrite !append_assoc. reflexivity.
Qed.

Lemma encode_users rows :
  encode (of_slice User_json (make_slice rows))
  = "[" ++ Join (map user_object rows) "," ++ "]".
Proof.
  cbn [of_slice encode]. rewrite map_map.
  rewrite (map_ext _ _ encode_user). reflexivity.
Qed.

(** *** Marshalled users read back *)

Lemma user_object_text u T : user_object u ++ T = user_text u T.
Proof.
  unfold user_object, user_text. cbn [cat].
  rewrite !append_assoc. reflexivity.
Qed.

Lemma parse_user f u T :
  plain_user u = true ->
  parse_value (5 + f) (user_text u T) = Some (User_json u, T).
Proof.
  unfold plain_user. intros H.
  apply andb_true_iff in H. destruct H as [H He].
  apply andb_true_iff in H. destruct H as [_ Hn].
  unfold user_text. cbn [Nat.add]. rewrite parse_value_object.
  assert (Hm : parse_members (S (S (S (S f))))
                 (quote "id" ++ String ":"
                    (FormatUint (ID u) ++ String ","
                       (quote "name" ++ String ":"
                          (quote (Name u) ++ String ","
                             (quote "email" ++ String ":"
                                (quote (Email u) ++ String "}" T))))))
               = Some ([("id", JUint (ID u)); ("name", JStr (Name u));
                        ("email", JStr (Email u))], T)).
  { eapply parse_members_more;
      [reflexivity | apply parse_value_uint; reflexivity |].
    eapply parse_members_more;
      [reflexivity | apply parse_value_string; exact Hn |].
    eapply parse_members_last;
      [reflexivity | apply parse_value_string; exact He]. }
  now rewrite Hm.
Qed.

Lemma parse_users l : forall u f T,
  forallb plain_user (u :: l) = true ->
  parse_elements (6 + length l + f) (elems_text u l T)
  = Some (map User_json (u :: l), T).
Proof.
  induction l as [|u' l IH]; intros u f T H;
    cbn [forallb] in H; apply andb_true_iff in H; destruct H as [Hu Hl].
  - cbn [length Nat.add elems_text]. rewrite parse_elements_unfold.
    now rewrite (parse_user f u _ Hu).
  - cbn [length Nat.add elems_text]. rewrite parse_elements_unfold.
    pose proof (parse_user (S (length l + f)) u
                  (String "," (elems_text u' l T)) Hu) as E.
    cbn [Nat.add] in E. rewrite E. clear E.
    pose proof (IH u' f T Hl) as E. cbn [Nat.add] in E.
    change (skip_ws (String "," (elems_text u' l T)))
      with (String "," (elems_text u' l T)).
    cbv iota beta. change (N_of_ascii "," =? 44) with true. cbv iota.
    now rewrite E.
Qed.

Lemma user_text_length u T :
  (String.length T + 7 <= String.length (user_text u T))%nat.
Proof.
  unfold user_text.
  repeat (cbn [String.length]; rewrite length_append).
  cbn [String.length]. lia.
Qed.

Lemma elems_text_length u l : forall T,
  (length l + 8 <= String.length (elems_text u l T))%nat.
Proof.
  revert u. induction l as [|u' l IH]; intros u T; cbn [elems_text length].
  - pose proof (user_text_length u (String "]" T)) as H.
    cbn [String.length] in H. lia.
  - pose proof (user_text_length u (String "," (elems_text u' l T))) as H.
    cbn [String.length] in H. specialize (IH u' T). lia.
Qed.

Lemma encode_users_text u l :
  encode (JArr (map User_json (u :: l))) = String "[" (elems_text u l EmptyString).
Proof.
  cbn [encode]. rewrite map_map.
  rewrite (map_ext _ _ encode_user).
  change ("[" ++ Join (map user_object (u :: l)) "," ++ "]")
    with (String "[" (Join (map user_object (u :: l)) "," ++ "]")).
  f_equal. revert u. induction l as [|u' l IH]; intros u.
  - cbn [map Join String.concat elems_text]. apply user_object_text.
  - cbn [map] in *. unfold Join in *. cbn [String.concat elems_text].
    change (match map user_object l with
            | [] => user_object u'
            | _ :: _ => user_object u' ++ "," ++ String.concat "," (map user_object l)
            end) with (String.concat "," (user_object u' :: map user_object l)).
    rewrite <- (IH u'), <- user_object_text, !append_assoc. reflexivity.
Qed.

Lemma Users_of_User_json l :
  forallb plain_user l = true ->
  Users_of_json (map User_json l) = Some l.
Proof.
  induction l as [|u l IH]; intros H; [reflexivity|].
  cbn [forallb] in H. apply andb_true_iff in H. destruct H as [Hu Hl].
  cbn [map Users_of_json]. rewrite (IH Hl).
  unfold plain_user in Hu.
  apply andb_true_iff in Hu. destruct Hu as [Hu _].
  apply andb_true_iff in Hu. destruct Hu as [Hid _].
  apply N.ltb_lt in Hid.
  destruct u as [id name email]. cbn [ID Name Email] in *.
  unfold User_of_json, User_json, JUint. cbn [set_fields].
  unfold set_field at 1. cbn [String.eqb Ascii.eqb Bool.eqb ID Name Email].
  rewrite (ParseUint_FormatUint id Hid). reflexivity.
Qed.

Lemma parse_value_array f u l T :
  parse_value (S f) (String "[" (elems_text u l T))
  = match parse_elements f (elems_text u l T) with
    | Some (vs, r') => Some (JArr vs, r')
    | None => None
    end.
Proof. destruct l; reflexivity. Qed.

(** Whatever slice of plain users is marshalled, nil and empty included,
    unmarshalling the bytes gives the same slice back. *)
Theorem Unmarshal_Marshal (users : slice User) :
  forallb plain_user (elems users) = true ->
  Unmarshal (fst (Marshal (of_slice User_json users))) = Some users.
Proof.
  intros H. destruct users as [|[|u l]]; [reflexivity | reflexivity |].
  cbn [elems] in H. cbn [Marshal fst of_slice]. unfold Unmarshal, parse.
  rewrite encode_users_text.
  set (n := String.length (String "[" (elems_text u l EmptyString))).
  assert (Hn : exists f, (2 * n + 2 = S (6 + length l + f))%nat).
  { exists (2 * n + 2 - S (6 + length l))%nat.
    pose proof (elems_text_length u l EmptyString) as HL. subst n.
    cbn [String.length]. lia. }
  destruct Hn as [f Hf]. rewrite Hf.
  rewrite parse_value_array.
  rewrite (parse_users l u f EmptyString H). cbn [skip_ws].
  now rewrite (Users_of_User_json (u :: l) H).
Qed.

(** *** Marshalled users fit a line *)

Lemma user_object_no_nl u : has_byte newline (user_object u) = false.
Proof.
  unfold user_object. cbn [cat].
  rewrite !has_byte_append, FormatUint_no_nl, !quote_no_nl. reflexivity.
Qed.

Lemma users_no_nl rows :
  has_byte newline ("[" ++ Join (map user_object rows) "," ++ "]") = false.
Proof.
  rewrite !has_byte_append, Join_no_nl; [reflexivity|].
  apply Forall_forall. intros s Hs. apply in_map_iff in Hs.
  destruct Hs as (u & <- & _). apply user_object_no_nl.
Qed.

End SeederFacts.

Import Go JSON Fmt Gorm Seeder JSONSpec SeederSpec StringFacts JSONFacts SeederFacts.

(** C3.  Seeding a fresh, empty [users] table: when the table exists
    without rows and the store carries out the insert, [CreateDummyUsers]
    completes and leaves exactly three rows in it, with ids 1, 2, 3, the
    names Alice Johnson, Bob Smith, Charlie Brown and the matching
    example.com addresses; the store has received one statement more than
    before, a single insert of the three rows. *)
Theorem seeding_a_fresh_table :
  forall (svc : UserServiceImpl) (w : World),
    table (store w) = Some [] ->
    refuses (store w) OpInsert = false ->
    let r := CreateDummyUsers svc w in
    let three := [ mkUser 1 "Alice Johnson" "alice@example.com";
                   mkUser 2 "Bob Smith" "bob@example.com";
                   mkUser 3 "Charlie Brown" "charlie@example.com" ] in
    fst r = Done tt
    /\ table (store (snd r)) = Some three
    /\ received (store (snd r)) = (received (store w) ++ [Insert three])%list.
Proof.
  intros svc w Ht Hr r three. subst r.
  rewrite CreateDummyUsers_run. cbn [fst snd store].
  unfold Create. cbn [dummyUsers]. rewrite Hr, Ht.
  repeat split.
Qed.

Lemma seeding_a_fresh_table_witness :
  let w := mkWorld (migrated fresh_store) EmptyString in
  table (store w) = Some []
  /\ table (store (snd (CreateDummyUsers userService w))) = Some [alice; bob; charlie].
Proof.
  split.
  - reflexivity.
  - apply (seeding_a_fresh_table userService (mkWorld (migrated fresh_store) EmptyString));
      reflexivity.
Defined.

(** C4, at the input where the script departs from it.  A second run finds
    the three seed rows a first run left.  The batch insert fails on their
    keys and adds nothing; the script drops the error, prints the success
    line all the same, goes on to report the rows and ends normally, where
    the error of [gorm.Open] a few lines earlier is checked and stops the
    run.  Whatever [lg] gorm's logger prints during the calls comes between
    the script's own lines. *)
Theorem failed_insert_reports_success :
  forall (lg : Call -> string) (out : string),
    let w := mkWorld (mkStore true (Some [alice; bob; charlie]) willing [] lg) out in
    table (store after_first_run) = Some [alice; bob; charlie]
    /\ insert_err (store w) = Some "duplicate key value violates unique constraint"
    /\ table (seeded (store w)) = Some [alice; bob; charlie]
    /\ fst (main w) = Done tt
    /\ stdout (snd (main w)) =
       out ++
       cat [lg CallOpen; lg CallAutoMigrate; lg CallCreate;
            "Dummy users created successfully."; nl;
            lg CallFind;
            "All Users:"; nl;
            "User: ID=1, Name=Alice Johnson, Email=alice@example.com"; nl;
            "User: ID=2, Name=Bob Smith, Email=bob@example.com"; nl;
            "User: ID=3, Name=Charlie Brown, Email=charlie@example.com"; nl;
            "Users JSON: ";
            encode (JArr [User_json alice; User_json bob; User_json charlie]); nl].
Proof.
  intros lg out w.
  split; [reflexivity|]. split; [reflexivity|]. split; [reflexivity|].
  subst w. rewrite main_reachable by reflexivity.
  split; reflexivity.
Qed.



(** C6.  When the connection cannot be established the script panics with
    [Failed to connect to database] before it does anything else: it writes
    none of its lines (standard output gains only what gorm's logger says
    about the failed [Open]), and no statement reaches the store. *)
Theorem connection_failure_is_fatal :
  forall w : World,
    reachable (store w) = false ->
    main w = (Panic "Failed to connect to database",
              mkWorld (store w) (stdout w ++ logger (store w) CallOpen)).
Proof. exact main_unreachable. Qed.

Lemma connection_failure_is_fatal_witness :
  reachable (store unreachable) = false
  /\ fst (main unreachable) = Panic "Failed to connect to database"
  /\ store (snd (main unreachable)) = store unreachable
  /\ stdout (snd (main unreachable))
     = cat ["$ go run ."; nl;
            "[error] failed to initialize database, got error dial error"; nl].
Proof.
  split; [reflexivity|].
  rewrite (connection_failure_is_fatal unreachable eq_refl).
  repeat split.
Defined.

(** C7.  After seeding an empty table, [GetAllUsers] returns the three
    seed records, and marshalling what it returns and unmarshalling the
    bytes into a [[]User] gives the three seed records back, equal in id,
    name and email. *)
Theorem users_json_round_trip :
  forall (svc : UserServiceImpl) (w : World),
    table (store w) = Some [] ->
    refuses (store w) OpInsert = false ->
    refuses (store w) OpQuery = false ->
    exists (users : slice User) (w' : World),
      (CreateDummyUsers svc ;; GetAllUsers svc) w = (Done users, w')
      /\ users = make_slice [alice; bob; charlie]
      /\ Unmarshal (fst (Marshal (of_slice User_json users)))
         = Some (make_slice [ mkUser 1 "Alice Johnson" "alice@example.com";
                              mkUser 2 "Bob Smith" "bob@example.com";
                              mkUser 3 "Charlie Brown" "charlie@example.com" ]).
Proof.
  intros svc w Ht Hi Hq.
  rewrite (bind_done _ _ _ _ _ (CreateDummyUsers_run svc w)), GetAllUsers_run.
  cbn [store stdout]. unfold Create, Find. cbn [dummyUsers].
  rewrite Hi, Ht. cbn -[Unmarshal Marshal]. rewrite Hq.
  eexists; eexists. split; [reflexivity|]. split; [reflexivity|].
  apply Unmarshal_Marshal. reflexivity.
Qed.

Lemma users_json_round_trip_witness :
  exists (users : slice User) (w' : World),
    (CreateDummyUsers userService ;; GetAllUsers userService)
      (mkWorld (migrated fresh_store) EmptyString) = (Done users, w')
    /\ users = make_slice [alice; bob; charlie]
    /\ Unmarshal (fst (Marshal (of_slice User_json users)))
       = Some (make_slice [alice; bob; charlie]).
Proof.
  apply (users_json_round_trip userService (mkWorld (migrated fresh_store) EmptyString));
    reflexivity.
Defined.

Module TaskServiceMoreFacts.
Import Go JSON Gin TaskService JSONSpec TaskServiceSpec TaskServiceMore.
Import StringFacts JSONFacts TaskServiceFacts.

Lemma Run_pointwise sd reqs :
  fst (Run sd router reqs init) = map (response_to sd) reqs.
Proof.
  induction reqs as [|req rest IH]; [reflexivity|].
  cbn [Run map]. unfold response_to at 1.
  pose proof (ServeHTTP_state sd req init) as Hs.
  destruct (ServeHTTP sd router req init) as [w g1]. cbn [snd] in Hs. subst g1.
  destruct (Run sd router rest init) as [ws g2]. cbn [fst] in *. now rewrite IH.
Qed.

Lemma substring_all s : String.substring 0 (String.length s) s = s.
Proof. induction s as [|c s IH]; cbn; [reflexivity | now rewrite IH]. Qed.

Lemma parse_value_null f T : parse_value (S f) ("null" ++ T) = Some (JNull, T).
Proof.
  cbn [append]. 
  change (parse_value (S f) (String "n" (String "u" (String "l" (String "l" T)))))
    with (option_map (pair JNull)
            (strip_prefix "null" (String "n" (String "u" (String "l" (String "l" T)))))).
  unfold strip_prefix. cbn.
  replace (String.prefix EmptyString T) with true by now destruct T.
  replace (String.length T - 0)%nat with (String.length T) by lia.
  now rewrite substring_all.
Qed.

Lemma parse_strs l : forall s f T,
  forallb ascii_only (s :: l) = true ->
  parse_elements (2 + length l + f) (strs_text s l T) = Some (map JStr (s :: l), T).
Proof.
  induction l as [|s' l IH]; intros s f T H;
    cbn [forallb] in H; apply andb_true_iff in H; destruct H as [Hs Hl].
  - cbn [length Nat.add strs_text]. rewrite parse_elements_unfold.
    now rewrite (parse_value_string f s _ Hs).
  - cbn [length Nat.add strs_text]. rewrite parse_elements_unfold.
    rewrite (parse_value_string _ s _ Hs).
    pose proof (IH s' f T Hl) as E. cbn [Nat.add] in E.
    change (skip_ws (String "," (strs_text s' l T)))
      with (String "," (strs_text s' l T)).
    cbv iota beta. change (N_of_ascii "," =? 44) with true. cbv iota.
    now rewrite E.
Qed.

Lemma parse_value_strs f s l T :
  parse_value (S f) (String "[" (strs_text s l T))
  = match parse_elements f (strs_text s l T) with
    | Some (vs, r') => Some (JArr vs, r')
    | None => None
    end.
Proof. destruct l; reflexivity. Qed.

Lemma parse_tasks items f T :
  forallb ascii_only (elems items) = true ->
  parse_value (2 + length (elems items) + f) (tasks_text items T)
  = Some (of_slice JStr items, T).
Proof.
  intros H. destruct items as [|[|s l]].
  - apply parse_value_null.
  - reflexivity.
  - cbn [elems length Nat.add tasks_text of_slice].
    rewrite parse_value_strs.
    pose proof (parse_strs l s f T H) as E. cbn [Nat.add] in E. now rewrite E.
Qed.

Lemma Join_strs l : forall s T,
  Join (map encode (map JStr (s :: l))) "," ++ String "]" T = strs_text s l T.
Proof.
  unfold Join. induction l as [|s' l IH]; intros s T.
  - reflexivity.
  - cbn [map] in *. cbn [String.concat strs_text encode].
    change (match map encode (map JStr l) with
            | [] => quote s'
            | _ :: _ => quote s' ++ "," ++ String.concat "," (map encode (map JStr l))
            end) with (String.concat "," (quote s' :: map encode (map JStr l))).
    rewrite <- (IH s'), !append_assoc. reflexivity.
Qed.

Lemma encode_tasks items T :
  encode (of_slice JStr items) ++ T = tasks_text items T.
Proof.
  destruct items as [|[|s l]]; try reflexivity.
  cbn [of_slice encode tasks_text]. rewrite !append_assoc. cbn [append].
  f_equal. apply Join_strs.
Qed.

Lemma strs_text_length s l : forall T,
  (length l + 3 <= String.length (strs_text s l T))%nat.
Proof.
  revert s. induction l as [|s' l IH]; intros s T; cbn [strs_text length];
    unfold quote; cbn [append String.length]; rewrite !length_append;
    cbn [String.length].
  - lia.
  - specialize (IH s' T). lia.
Qed.

Lemma tasks_text_length items T :
  (length (elems items) + 2 <= String.length (tasks_text items T))%nat.
Proof.
  destruct items as [|[|s l]]; cbn [elems length tasks_text append String.length];
    try lia.
  pose proof (strs_text_length s l T). lia.
Qed.

Lemma show_tasks_body c g :
  Written (Writer (fst (showTask c g)))
  = Written (Writer c)
    ++ String "{" (quote "task" ++ String ":" (tasks_text (taskItems g) "}")).
Proof.
  unfold showTask, JSON. cbn [fst].
  change (bodyAllowedForStatus StatusOK) with true. cbv iota.
  cbn [Writer Written Marshal fst]. f_equal.
  unfold of_map. cbn [fold_right insert_member encode map encode_member fst snd
                      Join String.concat].
  unfold encode_member. cbn [fst snd].
  change ("{" ++ (quote "task" ++ ":" ++ encode (of_slice JStr (taskItems g))) ++ "}")
    with (String "{" ((quote "task" ++ ":" ++ encode (of_slice JStr (taskItems g))) ++ "}")).
  f_equal. rewrite !append_assoc. cbn [append]. f_equal. f_equal.
  apply encode_tasks.
Qed.

End TaskServiceMoreFacts.

Import Go JSON Gin TaskService JSONSpec TaskServiceSpec TaskServiceMore.
Import StringFacts JSONFacts TaskServiceFacts TaskServiceMoreFacts.

(** X1.  The responses of a run are the responses to its requests taken one
    by one: each depends on its own request only, not on the requests served
    before it, and serving one sequence after another gives the responses of
    the first followed by those of the second. *)
Theorem responses_are_pointwise :
  forall (serverDefault : Request -> ResponseWriter) (reqs more : list Request),
    fst (main serverDefault reqs) = map (response_to serverDefault) reqs
    /\ fst (main serverDefault (reqs ++ more))
       = (fst (main serverDefault reqs) ++ fst (main serverDefault more))%list.
Proof.
  intros sd reqs more. unfold main. rewrite !Run_pointwise.
  split; [reflexivity | apply map_app].
Qed.

(** X2.  [showTask] writes whatever [taskItems] holds when the request
    arrives.  For any state of the package variables whose task texts are
    ASCII, a GET of [/show-tasks] is answered with status 200 and a body
    that reads back as the object with the one member [task]: the same
    texts in the same order, an empty array for an empty list, and [null]
    for a nil one. *)
Theorem show_tasks_follows_task_items :
  forall (serverDefault : Request -> ResponseWriter) (g : Globals)
         (query : string) (header : list (string * string)) (body : string),
    forallb ascii_only (elems (taskItems g)) = true ->
    let w := fst (ServeHTTP serverDefault router
                    (mkRequest "GET" "/show-tasks" query header body) g) in
    Status w = 200
    /\ parse (Written w) = Some (JObj [("task", of_slice JStr (taskItems g))]).
Proof.
  intros sd g query header body H w. subst w.
  change (fst (ServeHTTP sd router (mkRequest "GET" "/show-tasks" query header body) g))
    with (Writer (fst (showTask
                         (mkContext (mkRequest "GET" "/show-tasks" query header body)
                                    new_writer) g))).
  split; [reflexivity|].
  rewrite show_tasks_body. cbn [Writer Written new_writer append].
  unfold parse.
  set (txt := String "{" (quote "task" ++ String ":" (tasks_text (taskItems g) "}"))).
  assert (Hn : exists f, (2 * String.length txt + 2
                          = S (S (2 + length (elems (taskItems g)) + f)))%nat).
  { exists (2 * String.length txt + 2 - S (S (2 + length (elems (taskItems g)))))%nat.
    pose proof (tasks_text_length (taskItems g) "}") as HL. subst txt.
    cbn [String.length]. rewrite length_append. cbn [String.length]. lia. }
  destruct Hn as [f Hf]. rewrite Hf. subst txt.
  rewrite parse_value_object.
  rewrite (parse_members_last _ "task" _ (of_slice JStr (taskItems g)) EmptyString);
    [reflexivity | reflexivity | apply parse_tasks; exact H].
Qed.

Lemma show_tasks_follows_task_items_witness :
  let g := mkGlobals "a" "b" "c"
             (make_slice ["Buy <milk> & eggs"; "Call " ++ quoted "Bob"; "C:\temp"]) in
  let w := fst (ServeHTTP (fun _ => notFound) router
                  (mkRequest "GET" "/show-tasks" "page=2"
                             [("Accept", "application/json")] EmptyString) g) in
  forallb ascii_only (elems (taskItems g)) = true
  /\ Written w
     = cat ["{"; quoted "task"; ":[";
            quoted "Buy \u003cmilk\u003e \u0026 eggs"; ",";
            quoted ("Call \" ++ quoted "Bob\"); ",";
            quoted "C:\\temp"; "]}"]
  /\ parse (Written w)
     = Some (JObj [("task", JArr [JStr "Buy <milk> & eggs";
                                  JStr ("Call " ++ quoted "Bob");
                                  JStr "C:\temp"])]).
Proof.
  split; [reflexivity|]. split; [reflexivity|].
  apply (show_tasks_follows_task_items (fun _ => notFound)
           (mkGlobals "a" "b" "c"
              (make_slice ["Buy <milk> & eggs"; "Call " ++ quoted "Bob"; "C:\temp"]))
           "page=2" [("Accept", "application/json")] EmptyString).
  reflexivity.
Defined.

(** * Further properties of the seeding script *)

Module SeederMoreFacts.
Import Go JSON Fmt Gorm Seeder JSONSpec SeederSpec SeederMore.
Import StringFacts JSONFacts SeederFacts.
Local Open Scope list_scope.

(** *** Primary keys *)

Lemma existsb_eqb_In x l : existsb (N.eqb x) l = true <-> In x l.
Proof.
  rewrite existsb_exists. split.
  - intros (y & Hy & E). apply N.eqb_eq in E. now subst.
  - intros H. exists x. split; [exact H | apply N.eqb_refl].
Qed.

Lemma distinct_NoDup l : distinct l = true <-> NoDup l.
Proof.
  induction l as [|x l IH]; cbn [distinct].
  - split; [constructor | reflexivity].
  - rewrite andb_true_iff, negb_true_iff, IH. split.
    + intros [Hx Hl]. constructor; [|exact Hl].
      intros Hin. apply existsb_eqb_In in Hin. congruence.
    + intros H. inversion H as [|? ? Hx Hl]; subst. split; [|exact Hl].
      destruct (existsb (N.eqb x) l) eqn:E; [|reflexivity].
      apply existsb_eqb_In in E. contradiction.
Qed.

Lemma seed_id_In i : seed_id i = true <-> In i (map ID dummyUsers).
Proof.
  unfold seed_id. cbn [map dummyUsers ID In].
  rewrite !orb_true_iff, !N.eqb_eq. intuition congruence.
Qed.

Lemma distinct_with_seeds t :
  NoDup (map ID t) ->
  (forall u, In u t -> seed_id (ID u) = false) ->
  distinct (map ID (t ++ dummyUsers)) = true.
Proof.
  intros Hn Hfree. apply distinct_NoDup. rewrite map_app.
  induction t as [|u t IH]; cbn [map app].
  - apply distinct_NoDup. reflexivity.
  - inversion Hn as [|? ? Hu Ht]; subst. constructor.
    + intros Hin. apply in_app_or in Hin. destruct Hin as [Hin|Hin]; [contradiction|].
      apply seed_id_In in Hin. rewrite (Hfree u) in Hin; [discriminate | now left].
    + apply IH; [exact Ht|]. intros v Hv. apply Hfree. now right.
Qed.

(** *** The store from one step to the next *)

Lemma migrated_refused (s : Store User) :
  table s = None -> refuses s OpMigrate = true ->
  table (migrated s) = None.
Proof.
  intros Ht Hm. unfold migrated, AutoMigrate, log. rewrite Ht, Hm.
  reflexivity.
Qed.

Lemma Create_table (s : Store User) :
  table (snd (Create ID db dummyUsers s))
  = if refuses s OpInsert then table s
    else match table s with
         | None => None
         | Some t => if distinct (map ID (t ++ dummyUsers))
                     then Some (t ++ dummyUsers) else Some t
         end.
Proof.
  unfold Create, log, set_table. cbn [dummyUsers].
  destruct (refuses s OpInsert); [reflexivity|].
  destruct (table s) as [t|] eqn:E; cbn [snd table]; rewrite ?E; [|reflexivity].
  destruct (distinct _); cbn [snd table]; rewrite ?E; reflexivity.
Qed.

Lemma Find_table (s : Store User) dest : table (snd (Find db dest s)) = table s.
Proof.
  unfold Find, log. destruct (refuses s OpQuery); [reflexivity|].
  now destruct (table s) eqn:E.
Qed.

Lemma Find_result (s : Store User) :
  fst (fst (Find db nil_slice s))
  = if refuses s OpQuery then nil_slice
    else match table s with
         | None => nil_slice
         | Some t => make_slice t
         end.
Proof.
  unfold Find. destruct (refuses s OpQuery); [reflexivity|].
  now destruct (table s).
Qed.

Lemma queried_table (s : Store User) : table (queried s) = table (seeded s).
Proof. unfold queried. apply Find_table. Qed.

End SeederMoreFacts.

Module SeederCounting.
Import Go JSON Fmt Gorm Seeder JSONSpec SeederSpec SeederMore.
Import StringFacts JSONFacts SeederFacts.

Lemma count_byte_append c a b :
  count_byte c (a ++ b) = (count_byte c a + count_byte c b)%nat.
Proof. induction a as [|x a IH]; cbn [append count_byte]; [reflexivity | rewrite IH; lia]. Qed.

Lemma count_byte_none c s : has_byte c s = false -> count_byte c s = O.
Proof.
  induction s as [|x s IH]; cbn [has_byte count_byte]; [reflexivity|].
  intros H. apply orb_false_iff in H. destruct H as [Hx Hs].
  now rewrite Hx, (IH Hs).
Qed.

Lemma count_user_line u : count_byte newline (user_line u) = record_newlines u.
Proof.
  unfold user_line, record_newlines. cbn [cat].
  rewrite !count_byte_append, (count_byte_none _ _ (FormatUint_no_nl (ID u))).
  cbn. lia.
Qed.

Lemma count_user_lines l :
  count_byte newline (cat (map user_line l)) = list_sum (map record_newlines l).
Proof.
  induction l as [|u l IH]; [reflexivity|].
  cbn [map cat list_sum]. now rewrite count_byte_append, count_user_line, IH.
Qed.

Lemma count_users_json users :
  count_byte newline (encode (of_slice User_json users)) = O.
Proof.
  destruct users as [|rows]; [reflexivity|].
  rewrite encode_users. apply count_byte_none, users_no_nl.
Qed.

Lemma count_report lg users :
  count_byte newline (report lg users)
  = (3 + list_sum (map record_newlines (elems users)) + logger_newlines lg)%nat.
Proof.
  unfold report, logger_newlines. cbn [cat].
  rewrite !count_byte_append, count_user_lines, count_users_json.
  cbn. lia.
Qed.

End SeederCounting.

Import Go JSON Fmt Gorm Seeder JSONSpec SeederSpec SeederMore.
Import StringFacts JSONFacts SeederFacts SeederMoreFacts SeederCounting.

(** X3.  Seeding keeps what the table holds.  When the ids in the table
    are distinct, none of them is 1, 2 or 3, and the store carries out the
    insert and the query, [CreateDummyUsers] followed by [GetAllUsers]
    returns what the table then holds: the rows that were there together
    with the three seed records, each once, in the order the store scans
    them, and with ids that are still distinct. *)
Theorem seeding_keeps_existing_rows :
  forall (svc : UserServiceImpl) (w : World) (t : list User),
    table (store w) = Some t ->
    NoDup (map ID t) ->
    (forall u, In u t -> seed_id (ID u) = false) ->
    refuses (store w) OpInsert = false ->
    refuses (store w) OpQuery = false ->
    exists (rows : list User) (w' : World),
      (CreateDummyUsers svc ;; GetAllUsers svc) w = (Done (make_slice rows), w')
      /\ table (store w') = Some rows
      /\ Permutation rows (t ++ [alice; bob; charlie])
      /\ NoDup (map ID rows).
Proof.
  intros svc w t Ht Hn Hfree Hi Hq.
  rewrite (bind_done _ _ _ _ _ (CreateDummyUsers_run svc w)), GetAllUsers_run.
  cbn [store stdout]. unfold Create, Find, log, set_table. cbn [dummyUsers].
  rewrite Hi, Ht.
  pose proof (distinct_with_seeds t Hn Hfree) as Hd. cbn [dummyUsers] in Hd.
  rewrite Hd. cbn [snd fst refuses table]. rewrite Hq.
  eexists; eexists. split; [reflexivity|]. split; [reflexivity|].
  split; [apply Permutation_refl | apply distinct_NoDup; exact Hd].
Qed.

Lemma seeding_keeps_existing_rows_witness :
  exists (rows : list User) (w' : World),
    (CreateDummyUsers userService ;; GetAllUsers userService) with_guests
      = (Done (make_slice rows), w')
    /\ table (store w') = Some rows
    /\ Permutation rows [dora; eve; alice; bob; charlie]
    /\ NoDup (map ID rows).
Proof.
  apply (seeding_keeps_existing_rows userService with_guests [dora; eve]).
  - reflexivity.
  - constructor; [intros [H|[]]; discriminate H|].
    constructor; [intros []|constructor].
  - intros u [<-|[<-|[]]]; reflexivity.
  - reflexivity.
  - reflexivity.
Defined.

(** X7.  The JSON a run prints reads back as what was fetched.  When the
    fetched records have ids that fit 64 bits and ASCII names and emails,
    the text after [Users JSON: ] on the last line unmarshals into exactly
    the slice [GetAllUsers] returned: the same records in the same order,
    an empty slice for [[]], the nil slice for [null]. *)
Theorem printed_json_reads_back :
  forall w : World,
    reachable (store w) = true ->
    forallb plain_user (elems (fetched (store w))) = true ->
    exists before text : string,
      stdout (snd (main w)) = before ++ "Users JSON: " ++ text ++ nl
      /\ Unmarshal text = Some (fetched (store w)).
Proof.
  intros w Hr Hp. rewrite (main_reachable w Hr). cbn [snd stdout].
  exists (stdout w ++
          cat [logger (store w) CallOpen; logger (store w) CallAutoMigrate;
               logger (store w) CallCreate;
               "Dummy users created successfully."; nl;
               logger (store w) CallFind; "All Users:"; nl;
               cat (map user_line (elems (fetched (store w))))]).
  exists (encode (of_slice User_json (fetched (store w)))).
  split.
  - unfold report. cbn [cat]. now rewrite !append_assoc, !append_nil_r.
  - exact (Unmarshal_Marshal (fetched (store w)) Hp).
Qed.

Lemma printed_json_reads_back_witness :
  fetched (store in_use) = make_slice [zoe; yan]
  /\ exists before text : string,
       stdout (snd (main in_use)) = before ++ "Users JSON: " ++ text ++ nl
       /\ Unmarshal text = Some (make_slice [zoe; yan]).
Proof.
  split; [reflexivity|].
  apply (printed_json_reads_back in_use); reflexivity.
Defined.

(** X8.  [Display] writes names and emails as they are.  A connected run
    adds to standard output three lines of its own (the success line, the
    heading, the JSON line), what gorm's logger prints, and, for each
    fetched record, one line plus one more for every newline in its name
    or email: a record takes exactly one line only if its texts hold no
    newline. *)
Theorem lines_of_a_run :
  forall w : World,
    reachable (store w) = true ->
    exists out : string,
      stdout (snd (main w)) = stdout w ++ out
      /\ count_byte newline out
         = (3 + list_sum (map record_newlines (elems (fetched (store w))))
            + logger_newlines (logger (store w)))%nat.
Proof.
  intros w Hr. rewrite (main_reachable w Hr). cbn [snd stdout].
  exists (report (logger (store w)) (fetched (store w))).
  split; [reflexivity | apply count_report].
Qed.

Lemma lines_of_a_run_witness :
  record_newlines nellie = 2%nat
  /\ length (elems (fetched (store with_nellie))) = 4%nat
  /\ exists out : string,
       stdout (snd (main with_nellie)) = stdout with_nellie ++ out
       /\ count_byte newline out = 9%nat.
Proof.
  split; [reflexivity|]. split; [reflexivity|].
  apply (lines_of_a_run with_nellie). reflexivity.
Defined.

(** X9.  A refused migration goes unnoticed too.  When the table is absent
    and the store refuses to create it, a connected run still ends
    normally: the insert and the query fail on the missing table, nothing
    is stored, and the script's own lines are the success line, the
    heading, no record line and [Users JSON: null], with what gorm's logger
    prints about the failed calls before and between them. *)
Theorem refused_migration_run :
  forall w : World,
    reachable (store w) = true ->
    table (store w) = None ->
    refuses (store w) OpMigrate = true ->
    fst (main w) = Done tt
    /\ table (store (snd (main w))) = None
    /\ stdout (snd (main w))
       = stdout w ++
         cat [logger (store w) CallOpen; logger (store w) CallAutoMigrate;
              logger (store w) CallCreate;
              "Dummy users created successfully."; nl;
              logger (store w) CallFind;
              "All Users:"; nl; "Users JSON: null"; nl].
Proof.
  intros w Hr Ht Hm. rewrite (main_reachable w Hr). cbn [fst snd store stdout].
  pose proof (migrated_refused (store w) Ht Hm) as Hmt.
  assert (Hs : table (seeded (store w)) = None).
  { unfold seeded. rewrite Create_table, Hmt.
    now destruct (refuses (migrated (store w)) OpInsert). }
  assert (Hf : fetched (store w) = nil_slice).
  { unfold fetched. fold (seeded (store w)). rewrite Find_result, Hs.
    now destruct (refuses (seeded (store w)) OpQuery). }
  split; [reflexivity|]. split.
  - now rewrite queried_table.
  - now rewrite Hf.
Qed.

Lemma refused_migration_run_witness :
  fst (main locked) = Done tt
  /\ table (store (snd (main locked))) = None
  /\ stdout (snd (main locked))
     = cat ["[error] statement failed"; nl;
            "[error] statement failed"; nl;
            "Dummy users created successfully."; nl;
            "[error] statement failed"; nl;
            "All Users:"; nl; "Users JSON: null"; nl].
Proof. apply (refused_migration_run locked); reflexivity. Defined.

(** X11.  The report of a run without records.  When [GetAllUsers] returns
    no record, a connected run prints no record line, and its last line is
    [Users JSON: null] if the slice returned is nil and [Users JSON: []]
    if it is an empty slice that is not nil. *)
Theorem report_without_records :
  forall w : World,
    reachable (store w) = true ->
    elems (fetched (store w)) = [] ->
    stdout (snd (main w))
    = stdout w ++
      cat [logger (store w) CallOpen; logger (store w) CallAutoMigrate;
           logger (store w) CallCreate;
           "Dummy users created successfully."; nl;
           logger (store w) CallFind;
           "All Users:"; nl;
           "Users JSON: ";
           if is_nil (fetched (store w)) then "null" else "[]";
           nl].
Proof.
  intros w Hr He. rewrite (main_reachable w Hr). cbn [snd stdout].
  unfold report. rewrite He.
  destruct (fetched (store w)) as [|l]; [reflexivity|].
  cbn [elems] in He. subst l. reflexivity.
Qed.

Lemma report_without_records_witness :
  (is_nil (fetched (store locked)) = true
   /\ stdout (snd (main locked))
      = cat ["[error] statement failed"; nl;
             "[error] statement failed"; nl;
             "Dummy users created successfully."; nl;
             "[error] statement failed"; nl;
             "All Users:"; nl; "Users JSON: null"; nl])
  /\ (is_nil (fetched (store read_only)) = false
      /\ stdout (snd (main read_only))
         = cat ["[error] permission denied"; nl;
                "Dummy users created successfully."; nl;
                "All Users:"; nl; "Users JSON: []"; nl]).
Proof.
  split; (split; [reflexivity|]).
  - apply (report_without_records locked); reflexivity.
  - apply (report_without_records read_only); reflexivity.
Defined.
